(** * FreshShare: the authentication middleware (middleware/authJwt.js)

    A shallow embedding of the session resolver [decodeToken], the renewal
    policy [renewTokenIfNecessary], the global context middleware
    [addUserToRequestAndLocals] and the two route guards
    [requireAuthForPage] and [requireAuthForApi], with the properties the
    specification states about them, and of the way server.js and the
    route files mount these handlers.

    Conventions.
    - A JavaScript string is a [string]; a header or URL received by Node is
      a sequence of code units below 256, which is what [ascii] holds.
    - [Date.now()] is an integer number of milliseconds, a [Z].  The places
      where the code reads the clock take the reading as an argument.
    - A Mongoose document and the cookie jar of a request are JavaScript
      objects used as maps: [gmap string string].
    - Express handlers mutate [req] and [res] and call [next]: an
      [Exchange] carries the three and every handler is a function from
      exchange to exchange.  Console output is not part of the state. *)

From Stdlib Require Import ZArith QArith Ascii String.
From stdpp Require Import base strings gmap list.

Local Open Scope string_scope.
Local Open Scope Z_scope.

(** ** JavaScript values as the module uses them *)

Module Js.

(** Truthiness of a string: every string but the empty one. *)
Definition truthy (s : string) : bool :=
  match s with
  | EmptyString => false
  | String _ _ => true
  end.

(** [a && a.k] read as a condition, for an optional string. *)
Definition truthy_opt (o : option string) : option string :=
  match o with
  | Some s => if truthy s then Some s else None
  | None => None
  end.

(** [s.startsWith(p)]. *)
Definition startsWith (s p : string) : bool := String.prefix p s.

(** [s.substring(n)]: what is left of [s] from index [n] on. *)
Fixpoint substring_from (n : nat) (s : string) : string :=
  match n, s with
  | O, _ => s
  | S n', String _ s' => substring_from n' s'
  | S _, EmptyString => EmptyString
  end.

End Js.

(** ** Process configuration *)

Record Env := {
  env_JWT_SECRET : option string;   (* process.env.JWT_SECRET *)
  env_NODE_ENV : option string      (* process.env.NODE_ENV *)
}.

(** [process.env.JWT_SECRET || 'freshShare-auth-secret'] *)
Definition JWT_SECRET (env : Env) : string :=
  match Js.truthy_opt (env_JWT_SECRET env) with
  | Some s => s
  | None => "freshShare-auth-secret"
  end.

(** [process.env.NODE_ENV === 'production'] *)
Definition production (env : Env) : bool :=
  match env_NODE_ENV env with
  | Some s => String.eqb s "production"
  | None => false
  end.

(** ** Credentials *)

(** Modelled from the spec: the code that issues credentials at login
    (controllers/auth.controller.js) is not among the sources; a credential
    encodes a subject identifier, an issued-at and an expiry (section 3),
    which is also what the one [jwt.sign] call of this module produces.
    The module reads [id] and [exp] of a decoded payload and signs [id];
    jsonwebtoken adds [iat] and [exp] on signing.  A field the token does
    not carry is [None] ([undefined] in the code). *)
Record Payload := {
  id : option string;
  iat : option Z;
  exp : option Z
}.

#[export] Instance Payload_eq_dec : EqDecision Payload.
Proof. solve_decision. Defined.

Inductive JwtError :=
| JsonWebTokenError    (* malformed token or invalid signature *)
| TokenExpiredError.   (* the expiry has passed *)

Inductive VerifyResult :=
| Verified (p : Payload)
| Threw (e : JwtError).

(** [Math.floor(ms / 1000)] *)
Definition seconds_of (ms : Z) : Z := ms / 1000.

Definition sevenDaysInSeconds : Z := 7 * 24 * 60 * 60.

(** The jsonwebtoken codec, as far as the module depends on it.  [jws_sign]
    serialises a payload and signs it under a secret; [jws_verify] checks
    the signature under the secret and parses the payload, and yields
    nothing for a malformed token or a signature that does not match.
    Neither looks at the clock. *)
Class Jws := {
  jws_sign : string -> Payload -> string;
  jws_verify : string -> string -> option Payload
}.

(** [jwt.verify(token, secret)] at clock reading [now]: the signature and
    the format first, then the expiry against
    [Math.floor(Date.now() / 1000)]; a token without [exp] does not expire.
    The checks of claims no credential here carries (nbf, aud, iss) are
    left out. *)
Definition jwt_verify `{Jws} (now : Z) (token secret : string) : VerifyResult :=
  match jws_verify secret token with
  | None => Threw JsonWebTokenError
  | Some p =>
      match exp p with
      | Some e => if e <=? seconds_of now then Threw TokenExpiredError else Verified p
      | None => Verified p
      end
  end.

(** [jwt.sign({ id }, secret, { expiresIn: '7d' })] at clock reading [now]:
    jsonwebtoken stamps [iat] and sets [exp] seven days after it. *)
Definition renewed_payload (now : Z) (subject : option string) : Payload :=
  {| id := subject;
     iat := Some (seconds_of now);
     exp := Some (seconds_of now + sevenDaysInSeconds) |}.

Definition jwt_sign `{Jws} (now : Z) (subject : option string) (secret : string) : string :=
  jws_sign secret (renewed_payload now subject).

(** ** The user store *)

(** A user document: field name to value.  The module reads [_id] and
    names [password]. *)
Abbreviation Doc := (gmap string string).

Inductive QueryResult :=
| Resolved (doc : option Doc)   (* the promise resolves: a document or null *)
| Rejected.                     (* the promise rejects: awaiting it throws *)

(** The collection behind [User.findById]: for each identifier, what a
    lookup comes back with.  [Rejected] stands for every way the lookup can
    throw (the store cannot be reached, the identifier cannot be cast).
    The user schema is not part of this module; a document comes back with
    every stored path, which is Mongoose's default and what
    [select('-password')] is written against. *)
Definition Store := string -> QueryResult.

(** A store holding exactly the documents of [users], keyed by [_id]. *)
Definition store_of (users : gmap string Doc) : Store :=
  fun i => Resolved (users !! i).

(** A store whose lookups fail. *)
Definition unreachable : Store := fun _ => Rejected.

(** A Mongoose query under construction: the identifier looked up and the
    projection given to [select], if any. *)
Record Query := {
  q_id : string;
  q_select : option string
}.

Definition findById (i : string) : Query :=
  {| q_id := i; q_select := None |}.

Definition select (fields : string) (q : Query) : Query :=
  {| q_id := q_id q; q_select := Some fields |}.

(** A projection of one path: ['-f'] drops [f]; ['f'] keeps [f] and [_id]. *)
Definition project (fields : string) (d : Doc) : Doc :=
  if Js.startsWith fields "-"
  then delete (Js.substring_from 1 fields) d
  else filter (fun kv => kv.1 = fields \/ kv.1 = "_id") d.

(** [await query] *)
Definition await (db : Store) (q : Query) : QueryResult :=
  match db (q_id q) with
  | Resolved (Some d) =>
      Resolved (Some (match q_select q with
                      | Some fields => project fields d
                      | None => d
                      end))
  | Resolved None => Resolved None
  | Rejected => Rejected
  end.

(** ** Requests, responses and the call to [next] *)

Record Request := {
  cookies : option (gmap string string);  (* req.cookies, when cookie-parser ran *)
  authorization : option string;          (* req.headers.authorization *)
  originalUrl : string;                   (* req.originalUrl *)
  user : option Doc;                      (* req.user *)
  userId : option string                  (* req.userId *)
}.

Record CookieOptions := {
  httpOnly : bool;
  secure : bool;
  maxAge : Z;
  sameSite : string;
  path : string
}.

Record SetCookie := {
  cookie_name : string;
  cookie_value : string;
  cookie_options : CookieOptions
}.

Inductive Body :=
| JsonBody (success : bool) (message : string)   (* res.json({ success, message }) *)
| RedirectBody.                                  (* the body res.redirect sends *)

Record Response := {
  statusCode : Z;
  location : option string;        (* the Location header *)
  set_cookie : list SetCookie;     (* the Set-Cookie headers, oldest first *)
  locals_user : option Doc;        (* res.locals.user *)
  body : option Body               (* what was sent; None while nothing was *)
}.

Record Exchange := {
  req : Request;
  res : Response;
  next_calls : nat                 (* how many times next() was called *)
}.

(** A response nothing was written to. *)
Definition fresh_response : Response :=
  {| statusCode := 200; location := None; set_cookie := [];
     locals_user := None; body := None |}.

Definition set_authorization (a : option string) (r : Request) : Request :=
  {| cookies := cookies r; authorization := a;
     originalUrl := originalUrl r; user := user r; userId := userId r |}.

Definition set_user (u : Doc) (r : Request) : Request :=
  {| cookies := cookies r; authorization := authorization r;
     originalUrl := originalUrl r; user := Some u; userId := userId r |}.

Definition set_userId (i : option string) (r : Request) : Request :=
  {| cookies := cookies r; authorization := authorization r;
     originalUrl := originalUrl r; user := user r; userId := i |}.

Definition set_locals_user (u : Doc) (r : Response) : Response :=
  {| statusCode := statusCode r; location := location r;
     set_cookie := set_cookie r; locals_user := Some u; body := body r |}.

(** [res.status(code)] *)
Definition status (code : Z) (r : Response) : Response :=
  {| statusCode := code; location := location r;
     set_cookie := set_cookie r; locals_user := locals_user r; body := body r |}.

(** [res.json({ success, message })] *)
Definition json (success : bool) (message : string) (r : Response) : Response :=
  {| statusCode := statusCode r; location := location r;
     set_cookie := set_cookie r; locals_user := locals_user r;
     body := Some (JsonBody success message) |}.

(** [res.cookie(name, value, options)] appends a Set-Cookie header. *)
Definition cookie (name value : string) (o : CookieOptions) (r : Response) : Response :=
  {| statusCode := statusCode r; location := location r;
     set_cookie := set_cookie r ++ [{| cookie_name := name; cookie_value := value;
                                       cookie_options := o |}];
     locals_user := locals_user r; body := body r |}.

(** [res.redirect(url)]: Express answers 302 with [url] in Location. *)
Definition redirect (url : string) (r : Response) : Response :=
  {| statusCode := 302; location := Some url;
     set_cookie := set_cookie r; locals_user := locals_user r;
     body := Some RedirectBody |}.

(** [next()] *)
Definition next (x : Exchange) : Exchange :=
  {| req := req x; res := res x; next_calls := S (next_calls x) |}.

Definition with_req (r : Request) (x : Exchange) : Exchange :=
  {| req := r; res := res x; next_calls := next_calls x |}.

Definition with_res (r : Response) (x : Exchange) : Exchange :=
  {| req := req x; res := r; next_calls := next_calls x |}.

(** ** [encodeURIComponent] on the code units a request URL can hold *)

Module Uri.

Definition in_range (lo hi : ascii) (c : ascii) : bool :=
  ((N_of_ascii lo <=? N_of_ascii c) && (N_of_ascii c <=? N_of_ascii hi))%N.

(** The characters [encodeURIComponent] leaves alone:
    A-Z a-z 0-9 - _ . ! ~ * ' ( ) *)
Definition unreserved (c : ascii) : bool :=
  in_range "A" "Z" c || in_range "a" "z" c || in_range "0" "9" c
  || bool_decide (c ∈ list_ascii_of_string "-_.!~*'()").

Definition hex_digit (n : N) : ascii :=
  match String.get (N.to_nat n) "0123456789ABCDEF" with
  | Some c => c
  | None => "0"%char
  end.

(** [%XX] for one byte. *)
Definition percent (b : N) : string :=
  String "%" (String (hex_digit (b / 16)) (String (hex_digit (b mod 16)) EmptyString)).

(** One code unit: kept, or the percent-escaped bytes of its UTF-8
    encoding (one byte below 128, two from 128 to 255). *)
Definition encode_unit (c : ascii) : string :=
  if unreserved c then String c EmptyString
  else
    let n := N_of_ascii c in
    if (n <? 128)%N then percent n
    else percent (192 + n / 64) +:+ percent (128 + n mod 64).

Fixpoint encodeURIComponent (s : string) : string :=
  match s with
  | EmptyString => EmptyString
  | String c s' => encode_unit c +:+ encodeURIComponent s'
  end.

(** The characters an encoded component is made of: the unreserved ones
    and the percent sign.  None of them delimits a query string. *)
Definition component_char (c : ascii) : bool :=
  unreserved c || bool_decide (c = "%"%char).

(** Reading an encoded component back, one unit at a time.  The code only
    encodes; the reader is here to state that encoding loses nothing. *)
Definition hex_value (c : ascii) : N :=
  (if in_range "0" "9" c then N_of_ascii c - 48 else N_of_ascii c - 55)%N.

Definition read_byte (s : string) : option (N * string) :=
  match s with
  | String "%" (String h (String l rest)) => Some (16 * hex_value h + hex_value l, rest)%N
  | _ => None
  end.

Definition read_unit (s : string) : option (ascii * string) :=
  match s with
  | EmptyString => None
  | String "%" _ =>
      match read_byte s with
      | Some (b, rest) =>
          if (b <? 128)%N then Some (ascii_of_N b, rest)
          else match read_byte rest with
               | Some (b', rest') =>
                   Some (ascii_of_N ((b mod 4) * 64 + b' mod 64), rest')
               | None => None
               end
      | None => None
      end
  | String c rest => Some (c, rest)
  end.

End Uri.

(** ** The middleware *)

Section Middleware.

Context `{Jws}.
Variable env : Env.

(** [req.cookies && req.cookies.token], read as a condition. *)
Definition cookie_token (r : Request) : option string :=
  match cookies r with
  | Some jar => Js.truthy_opt (jar !! "token")
  | None => None
  end.

(** [req.headers.authorization &&
     req.headers.authorization.startsWith('Bearer ')], and then
    [req.headers.authorization.substring(7)]. *)
Definition bearer_token (r : Request) : option string :=
  match Js.truthy_opt (authorization r) with
  | Some h => if Js.startsWith h "Bearer " then Some (Js.substring_from 7 h) else None
  | None => None
  end.

(** The token [decodeToken] settles on before verifying: the cookie's
    when the cookie test passes, else the header's. *)
Definition extract_token (r : Request) : option string :=
  match cookie_token r with
  | Some t => Some t
  | None => bearer_token r
  end.

(** [try { return jwt.verify(token, JWT_SECRET) } catch (error) { return null }] *)
Definition verify_or_null (now : Z) (token : string) : option Payload :=
  match jwt_verify now token (JWT_SECRET env) with
  | Verified p => Some p
  | Threw _ => None
  end.

(** [decodeToken(req)], with the clock reading [jwt.verify] takes. *)
Definition decodeToken (now : Z) (r : Request) : option Payload :=
  match Js.truthy_opt (extract_token r) with
  | None => None                                   (* if (!token) return null *)
  | Some token => verify_or_null now token
  end.

(** [Date.now() / 1000], not rounded. *)
Definition nowInSeconds (now : Z) : Q := now # 1000.

Definition oneDayInSeconds : Z := 24 * 60 * 60.

(** [decoded.exp - nowInSeconds < oneDayInSeconds], on rationals.  On the
    doubles of the code the outcome is the same: both operands of the
    subtraction are within a factor two of each other, and the exact
    difference is a whole number of milliseconds, which rounding of
    [Date.now() / 1000] cannot carry across the bound. *)
Definition less_than_a_day_away (now e : Z) : bool :=
  match (inject_Z e - nowInSeconds now ?= inject_Z oneDayInSeconds)%Q with
  | Lt => true
  | _ => false
  end.

(** [decoded.exp && (decoded.exp - nowInSeconds < oneDayInSeconds)]: a
    number is truthy unless it is 0. *)
Definition renewal_due (now : Z) (decoded : Payload) : bool :=
  match exp decoded with
  | Some e => negb (e =? 0) && less_than_a_day_away now e
  | None => false
  end.

Definition renewal_cookie_options : CookieOptions :=
  {| httpOnly := true;
     secure := production env;
     maxAge := 7 * 24 * 60 * 60 * 1000;
     sameSite := "lax";
     path := "/" |}.

(** [renewTokenIfNecessary(res, decoded)].  [now] is the reading of
    [Date.now()] on entry, [sign_now] the one [jwt.sign] takes. *)
Definition renewTokenIfNecessary (now sign_now : Z) (r : Response) (decoded : Payload)
  : Response :=
  if renewal_due now decoded then
    let newToken := jwt_sign sign_now (id decoded) (JWT_SECRET env) in
    cookie "token" newToken renewal_cookie_options r
  else r.

(** The clock readings of one run of a handler that resolves a session:
    at verification, on entry to the renewal policy, and inside
    [jwt.sign]. *)
Record Clock := {
  at_verify : Z;
  at_renew : Z;
  at_sign : Z
}.

(** [decoded && decoded.id], read as a condition: the subject. *)
Definition subject (decoded : option Payload) : option string :=
  match decoded with
  | Some p => Js.truthy_opt (id p)
  | None => None
  end.

(** [addUserToRequestAndLocals(req, res, next)] *)
Definition addUserToRequestAndLocals (db : Store) (clk : Clock) (x : Exchange) : Exchange :=
  let decoded := decodeToken (at_verify clk) (req x) in
  let x' :=
    match decoded, subject decoded with
    | Some d, Some i =>
        match await db (select "-password" (findById i)) with
        | Resolved (Some u) =>
            let x1 := with_req (set_user u (req x)) x in
            let x2 := with_res (set_locals_user u (res x1)) x1 in
            with_res (renewTokenIfNecessary (at_renew clk) (at_sign clk) (res x2) d) x2
        | Resolved None => x
        | Rejected => x                            (* catch: log and go on *)
        end
    | _, _ => x
    end in
  next x'.

(** [requireAuthForPage(req, res, next)] *)
Definition requireAuthForPage (x : Exchange) : Exchange :=
  match user (req x) with
  | Some _ => next x
  | None =>
      with_res
        (redirect ("/login?redirect=" +:+ Uri.encodeURIComponent (originalUrl (req x))
                   +:+ "&error=Please+log+in+to+view+this+page")
                  (res x))
        x
  end.

(** [requireAuthForApi(req, res, next)] *)
Definition requireAuthForApi (db : Store) (clk : Clock) (x : Exchange) : Exchange :=
  let decoded := decodeToken (at_verify clk) (req x) in
  match decoded, subject decoded with
  | Some d, Some i =>
      match await db (findById i) with
      | Resolved None =>
          with_res (json false "Unauthorized. User not found." (status 401 (res x))) x
      | Resolved (Some u) =>
          let x1 := with_req (set_user u (req x)) x in
          let x2 := with_req (set_userId (u !! "_id") (req x1)) x1 in
          let x3 := with_res (renewTokenIfNecessary (at_renew clk) (at_sign clk) (res x2) d) x2 in
          next x3
      | Rejected =>
          with_res (json false "Server error during API authentication."
                      (status 500 (res x))) x
      end
  | _, _ =>
      with_res (json false "Authentication failed. No token provided."
                  (status 403 (res x))) x
  end.

End Middleware.

(** The ways a resolution comes to nothing: no credential in the request,
    an empty one, one the codec rejects (malformed, or a signature that
    does not match), or one whose expiry is not after the clock. *)
Inductive Unresolved `{Jws} (env : Env) (now : Z) (r : Request) : Prop :=
| NoCredential :
    extract_token r = None -> Unresolved env now r
| EmptyCredential :
    extract_token r = Some "" -> Unresolved env now r
| RejectedCredential (t : string) :
    extract_token r = Some t -> jws_verify (JWT_SECRET env) t = None ->
    Unresolved env now r
| ExpiredCredential (t : string) (p : Payload) (e : Z) :
    extract_token r = Some t -> jws_verify (JWT_SECRET env) t = Some p ->
    exp p = Some e -> e <= seconds_of now ->
    Unresolved env now r.

(** ** Sample data: a table-backed codec, a store and some requests *)

Module Sample.

(** A codec that knows the tokens of a table, all signed under [secret]. *)
Definition table_jws (secret : string) (table : list (string * Payload)) : Jws :=
  {| jws_sign := fun s p =>
       if decide (s = secret)
       then match List.find (fun e => bool_decide (e.2 = p)) table with
            | Some e => e.1
            | None => ""
            end
       else "";
     jws_verify := fun s t =>
       if decide (s = secret)
       then match List.find (fun e => bool_decide (e.1 = t)) table with
            | Some e => Some e.2
            | None => None
            end
       else None |}.

Definition env : Env := {| env_JWT_SECRET := None; env_NODE_ENV := None |}.

(** Clock readings are in milliseconds; [day] is one day of them. *)
Definition day : Z := 24 * 60 * 60 * 1000.
Definition t0 : Z := 1000 * day.

Definition alice : Payload :=
  {| id := Some "alice"; iat := Some (seconds_of t0 - 3600);
     exp := Some (seconds_of t0 - 3600 + sevenDaysInSeconds) |}.
Definition bob : Payload :=
  {| id := Some "bob"; iat := Some (seconds_of t0 - 7200);
     exp := Some (seconds_of t0 - 7200 + sevenDaysInSeconds) |}.
(** Expires 23h59m after [t0]. *)
Definition carol : Payload :=
  {| id := Some "carol"; iat := Some (seconds_of t0 + 86340 - sevenDaysInSeconds);
     exp := Some (seconds_of t0 + 86340) |}.
(** Expired one hour before [t0]. *)
Definition dave : Payload :=
  {| id := Some "dave"; iat := Some (seconds_of t0 - 3600 - sevenDaysInSeconds);
     exp := Some (seconds_of t0 - 3600) |}.
(** No expiry. *)
Definition erin : Payload :=
  {| id := Some "erin"; iat := Some (seconds_of t0 - 3600); exp := None |}.

Definition jws : Jws :=
  table_jws "freshShare-auth-secret"
    [ ("tok.alice", alice); ("tok.bob", bob); ("tok.carol", carol);
      ("tok.dave", dave); ("tok.erin", erin);
      ("tok.carol.renewed", renewed_payload t0 (Some "carol")) ].

Definition alice_doc : Doc :=
  {[ "_id" := "alice"; "username" := "Alice"; "password" := "$2a$08$hash" ]}.
Definition carol_doc : Doc :=
  {[ "_id" := "carol"; "username" := "Carol"; "password" := "$2a$08$hsah" ]}.

(** Alice and Carol have records; Bob's was deleted. *)
Definition db : Store :=
  store_of {[ "alice" := alice_doc; "carol" := carol_doc ]}.

Definition clk : Clock := {| at_verify := t0; at_renew := t0; at_sign := t0 |}.

Definition request (jar : option (gmap string string)) (auth : option string)
    (url : string) : Request :=
  {| cookies := jar; authorization := auth; originalUrl := url;
     user := None; userId := None |}.

Definition exchange (r : Request) : Exchange :=
  {| req := r; res := fresh_response; next_calls := 0 |}.

End Sample.

(** ** Routes: how the handlers are mounted (server.js, routes/*.js) *)

(** What a request without cookies looks like to the resolver. *)
Definition set_cookies (jar : option (gmap string string)) (r : Request) : Request :=
  {| cookies := jar; authorization := authorization r;
     originalUrl := originalUrl r; user := user r; userId := userId r |}.

(** The handlers of one route, in the order Express runs them: each runs
    on what the one before left, and only if that one called [next].  In
    the handlers of this module [next()] is the last thing done, so running
    the rest after the handler returns is running it inside the call. *)
Fixpoint dispatch (handlers : list (Exchange -> Exchange)) (x : Exchange) : Exchange :=
  match handlers with
  | [] => x
  | h :: rest =>
      let y := h x in
      if (next_calls x <? next_calls y)%nat then dispatch rest y else y
  end.

(** [router.get(path, requireAuthForPage, page)] below
    [app.use(addUserToRequestAndLocals)]: a protected page
    (/create-listing, /create-group, /profile, /profile-edit, /dashboard). *)
Definition protected_page `{Jws} (env : Env) (db : Store) (clk : Clock)
    (page : Exchange -> Exchange) : Exchange -> Exchange :=
  dispatch [addUserToRequestAndLocals env db clk; requireAuthForPage; page].

(** [router.get(path, requireAuthForApi, controller)] below
    [app.use(addUserToRequestAndLocals)]: a protected API route.  The two
    handlers query the store one after the other and read the clock one
    after the other. *)
Definition protected_api `{Jws} (env : Env) (db1 db2 : Store) (clk1 clk2 : Clock)
    (controller : Exchange -> Exchange) : Exchange -> Exchange :=
  dispatch [addUserToRequestAndLocals env db1 clk1; requireAuthForApi env db2 clk2; controller].


(** How often a character occurs in a string. *)
Fixpoint occurrences (c : ascii) (s : string) : nat :=
  match s with
  | EmptyString => O
  | String a s' => ((if Ascii.eqb a c then 1 else 0) + occurrences c s')%nat
  end.

Module SampleRoute.

(** A stand-in for a page or a controller: it answers and does not call
    [next]. *)
Definition answer (x : Exchange) : Exchange :=
  with_res (json true "done" (status 200 (res x))) x.

(** Carol's credential in the cookie, 23h59m before its expiry. *)
Definition carol_request : Request :=
  Sample.request (Some {[ "token" := "tok.carol" ]}) None "/api/auth/profile".

(** Alice's credential in the cookie, six days before its expiry. *)
Definition alice_request : Request :=
  Sample.request (Some {[ "token" := "tok.alice" ]}) None "/profile".

End SampleRoute.

(** ** JavaScript conditions *)

Lemma truthy_nonempty (s : string) : Js.truthy s = true <-> s <> "".
Proof. destruct s; simpl; split; intros; congruence. Qed.

Lemma truthy_opt_Some (o : option string) (s : string) :
  Js.truthy_opt o = Some s <-> o = Some s /\ s <> "".
Proof.
  unfold Js.truthy_opt. destruct o as [t|]; [|split; [discriminate | intros [? _]; discriminate]].
  destruct t; simpl; split.
  - discriminate.
  - intros [[= <-] Hne]. congruence.
  - intros [= <-]. split; [reflexivity | discriminate].
  - intros [[= <-] _]. reflexivity.
Qed.

(** ** The session resolver *)

Section Resolver.

Context `{Jws}.
Variable env : Env.

Lemma cookie_token_Some (r : Request) (t : string) :
  cookie_token r = Some t <->
  exists jar, cookies r = Some jar /\ jar !! "token" = Some t /\ t <> "".
Proof.
  unfold cookie_token. destruct (cookies r) as [jar|].
  - rewrite truthy_opt_Some. split.
    + intros [Hjar Hne]. exists jar. auto.
    + intros (jar' & [= <-] & Hjar & Hne). auto.
  - split; [discriminate | intros (jar & Hjar & _); discriminate].
Qed.

(** Once the cookie test passes the header is never read. *)
Lemma extract_token_cookie (r : Request) (t : string) :
  cookie_token r = Some t -> extract_token r = Some t.
Proof. unfold extract_token. intros ->. reflexivity. Qed.

Lemma decodeToken_cookie (now : Z) (r : Request) (t : string) :
  cookie_token r = Some t -> decodeToken env now r = verify_or_null env now t.
Proof.
  intros Hc. unfold decodeToken. rewrite (extract_token_cookie _ _ Hc).
  apply cookie_token_Some in Hc as (jar & _ & _ & Hne).
  assert (Js.truthy_opt (Some t) = Some t) as -> by (apply truthy_opt_Some; auto).
  reflexivity.
Qed.

Lemma cookie_token_set_authorization (a : option string) (r : Request) :
  cookie_token (set_authorization a r) = cookie_token r.
Proof. reflexivity. Qed.

(** What makes [jwt.verify] throw: a token the codec rejects, or an
    expiry that is not after the clock. *)
Lemma verify_or_null_None (now : Z) (t : string) :
  verify_or_null env now t = None <->
  jws_verify (JWT_SECRET env) t = None \/
  exists p e, jws_verify (JWT_SECRET env) t = Some p /\ exp p = Some e /\ e <= seconds_of now.
Proof.
  unfold verify_or_null, jwt_verify.
  destruct (jws_verify (JWT_SECRET env) t) as [p|]; [|split; auto].
  destruct (exp p) as [e|] eqn:He.
  - destruct (Z.leb_spec e (seconds_of now)) as [Hle|Hgt].
    + split; [intros _; right; eauto | reflexivity].
    + split; [discriminate|].
      intros [Hn | (p' & e' & Hp & He' & Hle)]; [discriminate|].
      injection Hp as <-. rewrite He in He'. injection He' as <-. lia.
  - split; [discriminate|].
    intros [Hn | (p' & e' & Hp & He' & _)]; [discriminate|].
    injection Hp as <-. congruence.
Qed.

Lemma verify_or_null_Some (now : Z) (t : string) (p : Payload) :
  verify_or_null env now t = Some p <->
  jws_verify (JWT_SECRET env) t = Some p /\
  (forall e, exp p = Some e -> seconds_of now < e).
Proof.
  unfold verify_or_null, jwt_verify.
  destruct (jws_verify (JWT_SECRET env) t) as [q|];
    [|split; [discriminate | intros [? _]; discriminate]].
  destruct (exp q) as [e|] eqn:He.
  - destruct (Z.leb_spec e (seconds_of now)); split.
    + discriminate.
    + intros [[= <-] Hlt]. specialize (Hlt _ He). lia.
    + intros [= <-]. split; [reflexivity|]. intros e' He'. rewrite He in He'.
      injection He' as <-. lia.
    + intros [[= <-] _]. reflexivity.
  - split.
    + intros [= <-]. split; [reflexivity|]. intros e' He'. congruence.
    + intros [[= <-] _]. reflexivity.
Qed.

(** A payload the resolver returned came out of [jwt.verify] at that
    clock reading. *)
Lemma decodeToken_Some (now : Z) (r : Request) (p : Payload) :
  decodeToken env now r = Some p <->
  exists t, extract_token r = Some t /\ t <> "" /\ verify_or_null env now t = Some p.
Proof.
  unfold decodeToken. split.
  - destruct (Js.truthy_opt (extract_token r)) as [t|] eqn:Ht; [|discriminate].
    apply truthy_opt_Some in Ht as [Ht Hne]. eauto.
  - intros (t & Ht & Hne & Hv).
    assert (Js.truthy_opt (extract_token r) = Some t) as -> by (apply truthy_opt_Some; auto).
    exact Hv.
Qed.

Lemma decodeToken_unexpired (now : Z) (r : Request) (p : Payload) (e : Z) :
  decodeToken env now r = Some p -> exp p = Some e -> seconds_of now < e.
Proof.
  intros Hd He. apply decodeToken_Some in Hd as (t & _ & _ & Hv).
  apply verify_or_null_Some in Hv as [_ Hlt]. auto.
Qed.

End Resolver.

(** *** Cookie before header *)

(** C3, as amended.  For every request whose [token] cookie holds a
    non-empty credential, [decodeToken] verifies that credential and
    nothing else: its result is the verification of the cookie's credential,
    whatever the Authorization header holds (replacing or removing the
    header does not change the result).  In particular, when the cookie's
    credential verifies, resolution yields the cookie's payload and so the
    cookie's subject, also when a Bearer header names another subject. *)
Theorem cookie_takes_precedence `{Jws} (env : Env) (now : Z) (r : Request)
    (jar : gmap string string) (c : string) :
  cookies r = Some jar -> jar !! "token" = Some c -> c <> "" ->
  decodeToken env now r = verify_or_null env now c /\
  subject (decodeToken env now r) = subject (verify_or_null env now c) /\
  (forall a, decodeToken env now (set_authorization a r) = decodeToken env now r).
Proof.
  intros Hjar Hc Hne.
  assert (cookie_token r = Some c) as Hck by (apply cookie_token_Some; eauto).
  pose proof (decodeToken_cookie env now r c Hck) as Hd.
  split; [exact Hd|]. split; [by rewrite Hd|].
  intros a. rewrite Hd. apply decodeToken_cookie.
  rewrite cookie_token_set_authorization. exact Hck.
Qed.

(** Alice's credential in the cookie, Bob's in the header: Alice. *)
Lemma cookie_takes_precedence_witness :
  let r := Sample.request (Some {[ "token" := "tok.alice" ]}) (Some "Bearer tok.bob") "/" in
  @decodeToken Sample.jws Sample.env Sample.t0 r = Some Sample.alice /\
  @verify_or_null Sample.jws Sample.env Sample.t0 "tok.bob" = Some Sample.bob.
Proof.
  intros r. split; [|reflexivity].
  destruct (@cookie_takes_precedence Sample.jws Sample.env Sample.t0 r
              {[ "token" := "tok.alice" ]} "tok.alice") as [Hd _].
  - reflexivity.
  - reflexivity.
  - discriminate.
  - rewrite Hd. reflexivity.
Defined.

(** C3, as stated, fails on a [token] cookie with an empty value: the
    request carries the cookie and a Bearer header, the cookie test
    [req.cookies && req.cookies.token] is false for the empty string, and
    the resolver verifies the header's credential instead of the cookie's. *)
Lemma cookie_precedence_empty_cookie :
  let r := Sample.request (Some {[ "token" := "" ]}) (Some "Bearer tok.bob") "/" in
  (exists jar, cookies r = Some jar /\ jar !! "token" = Some "") /\
  authorization r = Some "Bearer tok.bob" /\
  extract_token r = Some "tok.bob" /\
  @decodeToken Sample.jws Sample.env Sample.t0 r = Some Sample.bob /\
  @decodeToken Sample.jws Sample.env Sample.t0 r
    <> @verify_or_null Sample.jws Sample.env Sample.t0 "".
Proof.
  intros r. split; [eexists; split; reflexivity|].
  split; [reflexivity|]. split; [reflexivity|]. split; [reflexivity|].
  vm_compute. discriminate.
Qed.

(** *** No fallback from a cookie that does not verify *)

(** C10, as amended.  For every request whose [token] cookie holds a
    non-empty credential that fails verification (malformed, bad signature
    or expired: [jwt.verify] throws), [decodeToken] yields nothing, whatever
    the Authorization header holds, a valid Bearer credential included:
    there is no fallback from a non-empty cookie to the header. *)
Theorem no_fallback_from_cookie `{Jws} (env : Env) (now : Z) (r : Request)
    (jar : gmap string string) (c : string) (err : JwtError) :
  cookies r = Some jar -> jar !! "token" = Some c -> c <> "" ->
  jwt_verify now c (JWT_SECRET env) = Threw err ->
  decodeToken env now r = None /\
  (forall h, decodeToken env now (set_authorization (Some ("Bearer " +:+ h)) r) = None).
Proof.
  intros Hjar Hc Hne Hthrew.
  assert (cookie_token r = Some c) as Hck by (apply cookie_token_Some; eauto).
  assert (verify_or_null env now c = None) as Hv
    by (unfold verify_or_null; rewrite Hthrew; reflexivity).
  split.
  - rewrite (decodeToken_cookie env now r c Hck). exact Hv.
  - intros h. rewrite <- Hv. apply decodeToken_cookie.
    rewrite cookie_token_set_authorization. exact Hck.
Qed.

(** Dave's expired credential in the cookie, Alice's valid one in the
    header: nothing. *)
Lemma no_fallback_from_cookie_witness :
  let r := Sample.request (Some {[ "token" := "tok.dave" ]}) (Some "Bearer tok.alice") "/" in
  @verify_or_null Sample.jws Sample.env Sample.t0 "tok.alice" = Some Sample.alice /\
  @decodeToken Sample.jws Sample.env Sample.t0 r = None.
Proof.
  intros r. split; [reflexivity|].
  apply (@no_fallback_from_cookie Sample.jws Sample.env Sample.t0 r
           {[ "token" := "tok.dave" ]} "tok.dave" TokenExpiredError).
  - reflexivity.
  - reflexivity.
  - discriminate.
  - reflexivity.
Defined.

(** C10, as stated, fails on a [token] cookie with an empty value: the
    cookie is present, the empty string is no credential ([jwt.verify]
    throws on it), the header carries Alice's valid credential, and the
    resolver falls back to the header and yields Alice. *)
Lemma fallback_from_empty_cookie :
  let r := Sample.request (Some {[ "token" := "" ]}) (Some "Bearer tok.alice") "/" in
  (exists jar, cookies r = Some jar /\ jar !! "token" = Some "") /\
  @jwt_verify Sample.jws Sample.t0 "" (JWT_SECRET Sample.env) = Threw JsonWebTokenError /\
  @verify_or_null Sample.jws Sample.env Sample.t0 "tok.alice" = Some Sample.alice /\
  @decodeToken Sample.jws Sample.env Sample.t0 r = Some Sample.alice /\
  @decodeToken Sample.jws Sample.env Sample.t0 r <> None.
Proof.
  intros r. split; [eexists; split; reflexivity|].
  split; [reflexivity|]. split; [reflexivity|]. split; [reflexivity|].
  vm_compute. discriminate.
Qed.

(** ** The renewal policy *)

(** The comparison the code makes on [Date.now() / 1000], in whole
    milliseconds. *)
Lemma less_than_a_day_away_ms (now e : Z) :
  less_than_a_day_away now e = true <-> e * 1000 - now < 24 * 60 * 60 * 1000.
Proof.
  unfold less_than_a_day_away.
  destruct (inject_Z e - nowInSeconds now ?= inject_Z oneDayInSeconds)%Q eqn:Hc.
  - apply Qeq_alt in Hc. unfold Qeq, nowInSeconds, oneDayInSeconds in Hc. simpl in Hc.
    split; [discriminate | lia].
  - apply Qlt_alt in Hc. unfold Qlt, nowInSeconds, oneDayInSeconds in Hc. simpl in Hc.
    split; [lia | reflexivity].
  - apply Qgt_alt in Hc. unfold Qlt, nowInSeconds, oneDayInSeconds in Hc. simpl in Hc.
    split; [discriminate | lia].
Qed.

Lemma renewal_due_spec (now : Z) (decoded : Payload) :
  renewal_due now decoded = true <->
  exists e, exp decoded = Some e /\ e <> 0 /\ e * 1000 - now < 24 * 60 * 60 * 1000.
Proof.
  unfold renewal_due. destruct (exp decoded) as [e|].
  - rewrite andb_true_iff, negb_true_iff, Z.eqb_neq, less_than_a_day_away_ms.
    split.
    + intros [Hne Hlt]. eauto.
    + intros (e' & [= <-] & Hne & Hlt). auto.
  - split; [discriminate | intros (e & He & _); discriminate].
Qed.

(** Writing a cookie always changes the response. *)
Lemma cookie_changes (name value : string) (o : CookieOptions) (r : Response) :
  cookie name value o r <> r.
Proof.
  intros Heq. apply (f_equal (fun r => length (set_cookie r))) in Heq.
  simpl in Heq. rewrite length_app in Heq. simpl in Heq. lia.
Qed.

Section Renewal.

Context `{Jws}.
Variable env : Env.

Lemma renew_when_due (now sign_now : Z) (r : Response) (decoded : Payload) :
  renewal_due now decoded = true ->
  renewTokenIfNecessary env now sign_now r decoded
  = cookie "token" (jwt_sign sign_now (id decoded) (JWT_SECRET env))
      (renewal_cookie_options env) r.
Proof. unfold renewTokenIfNecessary. intros ->. reflexivity. Qed.

Lemma renew_when_not_due (now sign_now : Z) (r : Response) (decoded : Payload) :
  renewal_due now decoded = false ->
  renewTokenIfNecessary env now sign_now r decoded = r.
Proof. unfold renewTokenIfNecessary. intros ->. reflexivity. Qed.

(** The policy never touches anything but the Set-Cookie headers. *)
Lemma renew_only_cookies (now sign_now : Z) (r : Response) (decoded : Payload) :
  let r' := renewTokenIfNecessary env now sign_now r decoded in
  statusCode r' = statusCode r /\ location r' = location r /\
  locals_user r' = locals_user r /\ body r' = body r.
Proof.
  unfold renewTokenIfNecessary. destruct (renewal_due now decoded); simpl; auto.
Qed.

Lemma far_from_expiry_not_due (now e : Z) (decoded : Payload) :
  exp decoded = Some e -> 24 * 60 * 60 * 1000 <= e * 1000 - now ->
  renewal_due now decoded = false.
Proof.
  intros He Hfar. apply not_true_is_false. intros Hdue.
  apply renewal_due_spec in Hdue as (e' & He' & _ & Hlt).
  rewrite He in He'. injection He' as <-. lia.
Qed.

End Renewal.

(** C5.  For every decoded payload with an expiry field (a payload
    [decodeToken] returned, the clock being at or after the epoch), the
    renewal policy writes a replacement credential exactly when expiry minus
    the current time is strictly less than 24 hours, and leaves the response
    alone exactly when it is 24 hours or more: 23h59m renews, 25h does
    not. *)
Theorem renewal_iff_within_a_day `{Jws} (env : Env) (verified_at now sign_now : Z)
    (r : Request) (res0 : Response) (decoded : Payload) (e : Z) :
  0 <= verified_at ->
  decodeToken env verified_at r = Some decoded ->
  exp decoded = Some e ->
  let renewed :=
    cookie "token" (jwt_sign sign_now (id decoded) (JWT_SECRET env))
      (renewal_cookie_options env) res0 in
  (renewTokenIfNecessary env now sign_now res0 decoded = renewed
     <-> e * 1000 - now < 24 * 60 * 60 * 1000) /\
  (renewTokenIfNecessary env now sign_now res0 decoded = res0
     <-> 24 * 60 * 60 * 1000 <= e * 1000 - now) /\
  (e * 1000 - now = (23 * 60 + 59) * 60 * 1000 ->
     renewTokenIfNecessary env now sign_now res0 decoded = renewed) /\
  (e * 1000 - now = 25 * 60 * 60 * 1000 ->
     renewTokenIfNecessary env now sign_now res0 decoded = res0).
Proof.
  intros Hclock Hdec He renewed.
  assert (e <> 0) as Hne.
  { pose proof (decodeToken_unexpired env _ _ _ _ Hdec He) as Hlt.
    assert (0 <= seconds_of verified_at) by (apply Z.div_pos; lia). lia. }
  assert (e * 1000 - now < 24 * 60 * 60 * 1000 ->
          renewTokenIfNecessary env now sign_now res0 decoded = renewed) as Hyes.
  { intros Hlt. apply renew_when_due, renewal_due_spec. eauto. }
  assert (24 * 60 * 60 * 1000 <= e * 1000 - now ->
          renewTokenIfNecessary env now sign_now res0 decoded = res0) as Hno.
  { intros Hge. apply renew_when_not_due. eapply far_from_expiry_not_due; eauto. }
  repeat split.
  - intros Heq. destruct (Z.lt_ge_cases (e * 1000 - now) (24 * 60 * 60 * 1000)) as [|Hge];
      [assumption|].
    rewrite (Hno Hge) in Heq. symmetry in Heq. by apply cookie_changes in Heq.
  - exact Hyes.
  - intros Heq. destruct (Z.lt_ge_cases (e * 1000 - now) (24 * 60 * 60 * 1000)) as [Hlt|];
      [|assumption].
    rewrite (Hyes Hlt) in Heq. by apply cookie_changes in Heq.
  - exact Hno.
  - intros Heq. apply Hyes. lia.
  - intros Heq. apply Hno. lia.
Qed.

(** Carol's credential, 23h59m before its expiry: renewed. *)
Lemma renewal_iff_within_a_day_witness :
  @renewTokenIfNecessary Sample.jws Sample.env Sample.t0 Sample.t0 fresh_response Sample.carol
  = cookie "token" "tok.carol.renewed" (renewal_cookie_options Sample.env) fresh_response.
Proof.
  destruct (@renewal_iff_within_a_day Sample.jws Sample.env Sample.t0 Sample.t0 Sample.t0
              (Sample.request None (Some "Bearer tok.carol") "/") fresh_response
              Sample.carol (seconds_of Sample.t0 + 86340)) as (_ & _ & Hrenew & _).
  - unfold Sample.t0, Sample.day. lia.
  - reflexivity.
  - reflexivity.
  - exact (Hrenew eq_refl).
Defined.

(** Alice's credential, read 25 hours before it expires, is left alone. *)
Example renewal_not_at_25h :
  let now := (seconds_of Sample.t0 - 3600 + sevenDaysInSeconds) * 1000 - 25 * 60 * 60 * 1000 in
  @renewTokenIfNecessary Sample.jws Sample.env now now fresh_response Sample.alice
  = fresh_response.
Proof. reflexivity. Qed.

(** C6.  When the renewal policy issues a replacement, the replacement is
    signed over the subject identifier of the decoded payload and nothing
    else of it; it differs from the original in the issued-at and expiry
    fields only.  Read back under the same secret before its expiry, the
    replacement yields the same subject. *)
Theorem renewal_keeps_subject `{Jws} (env : Env) (now sign_now : Z) (res0 : Response)
    (decoded : Payload) :
  renewal_due now decoded = true ->
  let replacement := renewed_payload sign_now (id decoded) in
  let newToken := jws_sign (JWT_SECRET env) replacement in
  set_cookie (renewTokenIfNecessary env now sign_now res0 decoded)
  = (set_cookie res0
     ++ [{| cookie_name := "token"; cookie_value := newToken;
            cookie_options := renewal_cookie_options env |}])%list /\
  id replacement = id decoded /\
  replacement = {| id := id decoded;
                   iat := Some (seconds_of sign_now);
                   exp := Some (seconds_of sign_now + sevenDaysInSeconds) |} /\
  (jws_verify (JWT_SECRET env) newToken = Some replacement ->
   forall t, seconds_of t < seconds_of sign_now + sevenDaysInSeconds ->
     verify_or_null env t newToken = Some replacement /\
     subject (verify_or_null env t newToken) = subject (Some decoded)).
Proof.
  intros Hdue replacement newToken.
  rewrite (renew_when_due env _ _ _ _ Hdue).
  split; [reflexivity|]. split; [reflexivity|]. split; [reflexivity|].
  intros Hopen t Ht.
  assert (verify_or_null env t newToken = Some replacement) as Hv.
  { apply verify_or_null_Some. split; [exact Hopen|].
    intros e [= <-]. exact Ht. }
  split; [exact Hv|]. rewrite Hv. reflexivity.
Qed.

(** Carol's credential renewed at [t0] and read back a day later. *)
Lemma renewal_keeps_subject_witness :
  set_cookie (@renewTokenIfNecessary Sample.jws Sample.env Sample.t0 Sample.t0
                fresh_response Sample.carol)
  = [{| cookie_name := "token"; cookie_value := "tok.carol.renewed";
        cookie_options := renewal_cookie_options Sample.env |}] /\
  subject (@verify_or_null Sample.jws Sample.env (Sample.t0 + Sample.day) "tok.carol.renewed")
  = Some "carol".
Proof.
  destruct (@renewal_keeps_subject Sample.jws Sample.env Sample.t0 Sample.t0
              fresh_response Sample.carol) as (Hcookie & _ & _ & Hread).
  - reflexivity.
  - split; [exact Hcookie|].
    destruct (Hread eq_refl (Sample.t0 + Sample.day)) as [_ Hsubject].
    + reflexivity.
    + exact Hsubject.
Defined.

(** C7.  A decoded payload without an expiry field never triggers the
    renewal policy: whatever the clock reads, the response is returned as it
    was, with no cookie written. *)
Theorem no_expiry_no_renewal `{Jws} (env : Env) (now sign_now : Z) (res0 : Response)
    (decoded : Payload) :
  exp decoded = None ->
  renewTokenIfNecessary env now sign_now res0 decoded = res0 /\
  set_cookie (renewTokenIfNecessary env now sign_now res0 decoded) = set_cookie res0.
Proof.
  intros Hexp.
  assert (renewTokenIfNecessary env now sign_now res0 decoded = res0) as ->; [|auto].
  apply renew_when_not_due. unfold renewal_due. rewrite Hexp. reflexivity.
Qed.

(** Erin's credential has no expiry: a century after [t0] it is still not
    renewed. *)
Lemma no_expiry_no_renewal_witness :
  let later := Sample.t0 + 36500 * Sample.day in
  @renewTokenIfNecessary Sample.jws Sample.env later later fresh_response Sample.erin
  = fresh_response.
Proof.
  intros later.
  apply (@no_expiry_no_renewal Sample.jws Sample.env later later fresh_response Sample.erin).
  reflexivity.
Defined.

(** ** Resolving a credential that is valid and far from its expiry *)

Section FarFromExpiry.

Context `{Jws}.
Variable env : Env.
Variables (tok : string) (d : Payload) (e : Z).
Hypothesis tok_nonempty : tok <> "".
Hypothesis tok_opens : jws_verify (JWT_SECRET env) tok = Some d.
Hypothesis tok_expiry : exp d = Some e.

Lemma unexpired_resolves (t : Z) (r : Request) :
  extract_token r = Some tok -> seconds_of t < e ->
  decodeToken env t r = Some d.
Proof.
  intros Hex Hlt. apply decodeToken_Some. exists tok.
  split; [exact Hex|]. split; [exact tok_nonempty|].
  apply verify_or_null_Some. split; [exact tok_opens|].
  intros e' He'. rewrite tok_expiry in He'. injection He' as <-. exact Hlt.
Qed.

Lemma far_is_unexpired (t : Z) :
  24 * 60 * 60 * 1000 < e * 1000 - t -> seconds_of t < e.
Proof. intros Hfar. unfold seconds_of. apply Z.div_lt_upper_bound; lia. Qed.

Lemma far_no_renewal (t sign_now : Z) (r : Response) :
  24 * 60 * 60 * 1000 < e * 1000 - t ->
  renewTokenIfNecessary env t sign_now r d = r.
Proof.
  intros Hfar. apply renew_when_not_due.
  apply (far_from_expiry_not_due t e d tok_expiry). lia.
Qed.

(** What the global middleware does with such a credential: attach the
    record if there is one, write no cookie, call [next]. *)
Lemma addUser_far (db : Store) (clk : Clock) (x : Exchange) :
  extract_token (req x) = Some tok ->
  24 * 60 * 60 * 1000 < e * 1000 - at_verify clk ->
  24 * 60 * 60 * 1000 < e * 1000 - at_renew clk ->
  addUserToRequestAndLocals env db clk x
  = next (match subject (Some d) with
          | Some i =>
              match await db (select "-password" (findById i)) with
              | Resolved (Some u) =>
                  {| req := set_user u (req x);
                     res := set_locals_user u (res x);
                     next_calls := next_calls x |}
              | _ => x
              end
          | None => x
          end).
Proof.
  intros Hex Hv Hr. unfold addUserToRequestAndLocals.
  rewrite (unexpired_resolves _ _ Hex (far_is_unexpired _ Hv)).
  destruct (subject (Some d)) as [i|]; [|reflexivity].
  destruct (await db (select "-password" (findById i))) as [[u|]|]; try reflexivity.
  f_equal. unfold with_res, with_req. simpl. rewrite (far_no_renewal _ _ _ Hr). reflexivity.
Qed.

(** The same for the API guard. *)
Lemma requireAuthForApi_far (db : Store) (clk : Clock) (x : Exchange) :
  extract_token (req x) = Some tok ->
  24 * 60 * 60 * 1000 < e * 1000 - at_verify clk ->
  24 * 60 * 60 * 1000 < e * 1000 - at_renew clk ->
  requireAuthForApi env db clk x
  = match subject (Some d) with
    | Some i =>
        match await db (findById i) with
        | Resolved None =>
            with_res (json false "Unauthorized. User not found." (status 401 (res x))) x
        | Resolved (Some u) =>
            next {| req := set_userId (u !! "_id") (set_user u (req x));
                    res := res x;
                    next_calls := next_calls x |}
        | Rejected =>
            with_res (json false "Server error during API authentication."
                        (status 500 (res x))) x
        end
    | None =>
        with_res (json false "Authentication failed. No token provided."
                    (status 403 (res x))) x
    end.
Proof.
  intros Hex Hv Hr. unfold requireAuthForApi.
  rewrite (unexpired_resolves _ _ Hex (far_is_unexpired _ Hv)).
  destruct (subject (Some d)) as [i|]; [|reflexivity].
  destruct (await db (findById i)) as [[u|]|]; try reflexivity.
  f_equal. unfold with_res, with_req. simpl. rewrite (far_no_renewal _ _ _ Hr). reflexivity.
Qed.

End FarFromExpiry.

(** The handlers leave the credentials of the request where they are. *)
Lemma extract_token_set_user (u : Doc) (r : Request) :
  extract_token (set_user u r) = extract_token r.
Proof. reflexivity. Qed.

Lemma addUser_keeps_token `{Jws} (env : Env) (db : Store) (clk : Clock) (x : Exchange) :
  extract_token (req (addUserToRequestAndLocals env db clk x)) = extract_token (req x).
Proof.
  unfold addUserToRequestAndLocals.
  destruct (decodeToken env (at_verify clk) (req x)) as [p|]; [|reflexivity].
  destruct (subject (Some p)) as [i|]; [|reflexivity].
  destruct (await db (select "-password" (findById i))) as [[u|]|]; reflexivity.
Qed.

(** C9.  A credential that verifies and whose expiry is more than 24 hours
    away at every instant involved resolves to the same payload on both of
    two resolutions; the global context middleware and the API guard, run on
    the same exchange at either clock, give the same result and write no
    cookie; and so does the API guard run after the global middleware on the
    exchange it returned. *)
Theorem resolving_twice_is_idempotent `{Jws} (env : Env) (db : Store) (clk1 clk2 : Clock)
    (x : Exchange) (tok : string) (d : Payload) (e : Z) :
  extract_token (req x) = Some tok -> tok <> "" ->
  jws_verify (JWT_SECRET env) tok = Some d -> exp d = Some e ->
  24 * 60 * 60 * 1000 < e * 1000 - at_verify clk1 ->
  24 * 60 * 60 * 1000 < e * 1000 - at_renew clk1 ->
  24 * 60 * 60 * 1000 < e * 1000 - at_verify clk2 ->
  24 * 60 * 60 * 1000 < e * 1000 - at_renew clk2 ->
  decodeToken env (at_verify clk1) (req x) = Some d /\
  decodeToken env (at_verify clk2) (req x) = Some d /\
  addUserToRequestAndLocals env db clk1 x = addUserToRequestAndLocals env db clk2 x /\
  set_cookie (res (addUserToRequestAndLocals env db clk1 x)) = set_cookie (res x) /\
  requireAuthForApi env db clk1 x = requireAuthForApi env db clk2 x /\
  set_cookie (res (requireAuthForApi env db clk1 x)) = set_cookie (res x) /\
  (let y := addUserToRequestAndLocals env db clk1 x in
   decodeToken env (at_verify clk2) (req y) = Some d /\
   set_cookie (res (requireAuthForApi env db clk2 y)) = set_cookie (res x)).
Proof.
  intros Hex Hne Hopen Hexp Hv1 Hr1 Hv2 Hr2.
  pose proof (addUser_far env tok d e Hne Hopen Hexp db) as Hadd.
  pose proof (requireAuthForApi_far env tok d e Hne Hopen Hexp db) as Hapi.
  assert (forall clk z, extract_token (req z) = Some tok ->
            24 * 60 * 60 * 1000 < e * 1000 - at_verify clk ->
            24 * 60 * 60 * 1000 < e * 1000 - at_renew clk ->
            set_cookie (res (addUserToRequestAndLocals env db clk z)) = set_cookie (res z))
    as Hadd_cookies.
  { intros clk z Hz Hv Hr. rewrite (Hadd clk z Hz Hv Hr).
    destruct (subject (Some d)) as [i|]; [|reflexivity].
    destruct (await db (select "-password" (findById i))) as [[u|]|]; reflexivity. }
  assert (forall clk z, extract_token (req z) = Some tok ->
            24 * 60 * 60 * 1000 < e * 1000 - at_verify clk ->
            24 * 60 * 60 * 1000 < e * 1000 - at_renew clk ->
            set_cookie (res (requireAuthForApi env db clk z)) = set_cookie (res z))
    as Hapi_cookies.
  { intros clk z Hz Hv Hr. rewrite (Hapi clk z Hz Hv Hr).
    destruct (subject (Some d)) as [i|]; [|reflexivity].
    destruct (await db (findById i)) as [[u|]|]; reflexivity. }
  pose proof (far_is_unexpired e _ Hv1) as Hlt1.
  pose proof (far_is_unexpired e _ Hv2) as Hlt2.
  split; [exact (unexpired_resolves env tok d e Hne Hopen Hexp _ _ Hex Hlt1)|].
  split; [exact (unexpired_resolves env tok d e Hne Hopen Hexp _ _ Hex Hlt2)|].
  split; [rewrite (Hadd clk1 x Hex Hv1 Hr1), (Hadd clk2 x Hex Hv2 Hr2); reflexivity|].
  split; [exact (Hadd_cookies clk1 x Hex Hv1 Hr1)|].
  split; [rewrite (Hapi clk1 x Hex Hv1 Hr1), (Hapi clk2 x Hex Hv2 Hr2); reflexivity|].
  split; [exact (Hapi_cookies clk1 x Hex Hv1 Hr1)|].
  intros y.
  assert (extract_token (req y) = Some tok) as Hy
    by (unfold y; rewrite addUser_keeps_token; exact Hex).
  split; [exact (unexpired_resolves env tok d e Hne Hopen Hexp _ _ Hy Hlt2)|].
  rewrite (Hapi_cookies clk2 y Hy Hv2 Hr2). exact (Hadd_cookies clk1 x Hex Hv1 Hr1).
Qed.

(** Alice's credential, six days from its expiry, resolved at [t0] and a
    minute later. *)
Lemma resolving_twice_is_idempotent_witness :
  let x := Sample.exchange (Sample.request (Some {[ "token" := "tok.alice" ]}) None "/") in
  let later := {| at_verify := Sample.t0 + 60000; at_renew := Sample.t0 + 60005;
                  at_sign := Sample.t0 + 60005 |} in
  @decodeToken Sample.jws Sample.env Sample.t0 (req x) = Some Sample.alice /\
  @decodeToken Sample.jws Sample.env (Sample.t0 + 60000) (req x) = Some Sample.alice /\
  @addUserToRequestAndLocals Sample.jws Sample.env Sample.db Sample.clk x
  = @addUserToRequestAndLocals Sample.jws Sample.env Sample.db later x /\
  set_cookie (res (@addUserToRequestAndLocals Sample.jws Sample.env Sample.db Sample.clk x)) = [].
Proof.
  intros x later.
  destruct (@resolving_twice_is_idempotent Sample.jws Sample.env Sample.db Sample.clk later
              x "tok.alice" Sample.alice (seconds_of Sample.t0 - 3600 + sevenDaysInSeconds))
    as (Hd1 & Hd2 & Hsame & Hcookies & _).
  - reflexivity.
  - discriminate.
  - reflexivity.
  - reflexivity.
  - reflexivity.
  - reflexivity.
  - reflexivity.
  - reflexivity.
  - split; [exact Hd1|]. split; [exact Hd2|]. split; [exact Hsame|]. exact Hcookies.
Defined.

(** ** The API guard *)

Lemma decodeToken_None_iff `{Jws} (env : Env) (now : Z) (r : Request) :
  decodeToken env now r = None <-> Unresolved env now r.
Proof.
  unfold decodeToken. split.
  - destruct (extract_token r) as [t|] eqn:Ht; [|intros _; by apply NoCredential].
    destruct t as [|c t']; [intros _; by apply EmptyCredential|].
    simpl. intros Hv. apply verify_or_null_None in Hv as [Hrej | (p & e & Hp & He & Hle)].
    + by eapply RejectedCredential.
    + by eapply ExpiredCredential.
  - intros [Ht | Ht | t Ht Hrej | t p e Ht Hp He Hle]; rewrite Ht; try reflexivity.
    + destruct t; [reflexivity|]. simpl. apply verify_or_null_None. by left.
    + destruct t; [reflexivity|]. simpl. apply verify_or_null_None. right. eauto.
Qed.

(** C1.  In the API guard, a resolution that yields nothing (no credential,
    or one that is malformed, badly signed or expired, a well-formed expired
    bearer credential included) is answered 403 with
    [{success: false, message}]; a resolution that yields a subject for
    which the store has no record is answered 401 with
    [{success: false, message}]; in both cases [next] is not called and the
    request is left as it was. *)
Theorem requireAuthForApi_rejects `{Jws} (env : Env) (db : Store) (clk : Clock)
    (x : Exchange) :
  let y := requireAuthForApi env db clk x in
  (Unresolved env (at_verify clk) (req x) ->
   decodeToken env (at_verify clk) (req x) = None) /\
  (decodeToken env (at_verify clk) (req x) = None ->
   statusCode (res y) = 403 /\
   body (res y) = Some (JsonBody false "Authentication failed. No token provided.") /\
   next_calls y = next_calls x /\ req y = req x) /\
  (forall i, subject (decodeToken env (at_verify clk) (req x)) = Some i ->
   db i = Resolved None ->
   statusCode (res y) = 401 /\
   body (res y) = Some (JsonBody false "Unauthorized. User not found.") /\
   next_calls y = next_calls x /\ req y = req x).
Proof.
  intros y. split; [apply decodeToken_None_iff|]. split.
  - intros Hnone. unfold y, requireAuthForApi. rewrite Hnone. simpl. auto.
  - intros i Hi Hdb. unfold y, requireAuthForApi.
    destruct (decodeToken env (at_verify clk) (req x)) as [d|]; [|discriminate].
    rewrite Hi. unfold await. simpl. rewrite Hdb. simpl. auto.
Qed.

(** Dave's expired credential as a bearer: 403.  Bob's valid credential,
    his record deleted: 401. *)
Lemma requireAuthForApi_rejects_witness :
  let expired := Sample.exchange (Sample.request None (Some "Bearer tok.dave") "/api/groups") in
  let deleted := Sample.exchange (Sample.request None (Some "Bearer tok.bob") "/api/groups") in
  (statusCode (res (@requireAuthForApi Sample.jws Sample.env Sample.db Sample.clk expired)) = 403 /\
   next_calls (@requireAuthForApi Sample.jws Sample.env Sample.db Sample.clk expired) = 0%nat) /\
  (statusCode (res (@requireAuthForApi Sample.jws Sample.env Sample.db Sample.clk deleted)) = 401 /\
   next_calls (@requireAuthForApi Sample.jws Sample.env Sample.db Sample.clk deleted) = 0%nat).
Proof.
  intros expired deleted. split.
  - destruct (@requireAuthForApi_rejects Sample.jws Sample.env Sample.db Sample.clk expired)
      as (Hcause & H403 & _).
    destruct (H403 (Hcause (@ExpiredCredential Sample.jws Sample.env Sample.t0 (req expired)
                              "tok.dave" Sample.dave (seconds_of Sample.t0 - 3600)
                              eq_refl eq_refl eq_refl ltac:(vm_compute; discriminate))))
      as (Hstatus & _ & Hnext & _).
    split; [exact Hstatus | exact Hnext].
  - destruct (@requireAuthForApi_rejects Sample.jws Sample.env Sample.db Sample.clk deleted)
      as (_ & _ & H401).
    destruct (H401 "bob" eq_refl eq_refl) as (Hstatus & _ & Hnext & _).
    split; [exact Hstatus | exact Hnext].
Defined.

(** ** The global context middleware *)

(** C4.  The global context middleware calls [next] exactly once on every
    request and writes no response of its own: status, body and Location
    are as they were.  When the resolver yields a subject and the lookup
    throws or finds nothing, nothing at all is attached: the request and the
    response (render locals included) are unchanged; likewise when the
    resolver yields no subject. *)
Theorem addUser_always_continues `{Jws} (env : Env) (db : Store) (clk : Clock)
    (x : Exchange) :
  let y := addUserToRequestAndLocals env db clk x in
  next_calls y = S (next_calls x) /\
  statusCode (res y) = statusCode (res x) /\
  body (res y) = body (res x) /\
  location (res y) = location (res x) /\
  (forall i, subject (decodeToken env (at_verify clk) (req x)) = Some i ->
     db i = Rejected \/ db i = Resolved None ->
     req y = req x /\ res y = res x) /\
  (subject (decodeToken env (at_verify clk) (req x)) = None ->
     req y = req x /\ res y = res x).
Proof.
  intros y. unfold y, addUserToRequestAndLocals.
  destruct (decodeToken env (at_verify clk) (req x)) as [d|] eqn:Hd.
  2:{ simpl. repeat split; auto; discriminate. }
  destruct (subject (Some d)) as [i|] eqn:Hi.
  2:{ simpl. repeat split; auto; discriminate. }
  unfold await. simpl.
  destruct (db i) as [[u|]|] eqn:Hdb.
  - pose proof (renew_only_cookies env (at_renew clk) (at_sign clk)
                  (set_locals_user (project "-password" u) (res x)) d) as (Hs & Hl & _ & Hb).
    simpl in *. split; [reflexivity|]. split; [exact Hs|]. split; [exact Hb|].
    split; [exact Hl|]. split.
    + intros j [= <-] [Hrej | Hnone]; congruence.
    + discriminate.
  - simpl. repeat split; auto.
  - simpl. repeat split; auto.
Qed.

(** Bob's credential is valid and his record is gone; Alice's is looked up
    in a store that cannot be reached. *)
Lemma addUser_always_continues_witness :
  let bob := Sample.exchange (Sample.request (Some {[ "token" := "tok.bob" ]}) None "/") in
  let alice := Sample.exchange (Sample.request (Some {[ "token" := "tok.alice" ]}) None "/") in
  @addUserToRequestAndLocals Sample.jws Sample.env Sample.db Sample.clk bob = next bob /\
  @addUserToRequestAndLocals Sample.jws Sample.env unreachable Sample.clk alice = next alice.
Proof.
  intros bob alice. split.
  - destruct (@addUser_always_continues Sample.jws Sample.env Sample.db Sample.clk bob)
      as (Hnext & _ & _ & _ & Hswallow & _).
    destruct (Hswallow "bob" eq_refl (or_intror eq_refl)) as [Hreq Hres].
    destruct (@addUserToRequestAndLocals Sample.jws Sample.env Sample.db Sample.clk bob)
      as [rq rs n].
    simpl in *. rewrite Hnext, Hreq, Hres. reflexivity.
  - destruct (@addUser_always_continues Sample.jws Sample.env unreachable Sample.clk alice)
      as (Hnext & _ & _ & _ & Hswallow & _).
    destruct (Hswallow "alice" eq_refl (or_introl eq_refl)) as [Hreq Hres].
    destruct (@addUserToRequestAndLocals Sample.jws Sample.env unreachable Sample.clk alice)
      as [rq rs n].
    simpl in *. rewrite Hnext, Hreq, Hres. reflexivity.
Defined.

(** *** What is attached *)

Lemma project_minus_password (u : Doc) : project "-password" u !! "password" = None.
Proof. unfold project. simpl. apply lookup_delete_eq. Qed.

Lemma project_minus_password_other (u : Doc) (k : string) :
  k <> "password" -> project "-password" u !! k = u !! k.
Proof. intros Hk. unfold project. simpl. by apply lookup_delete_ne. Qed.

(** The record the global context middleware attaches, to the request and
    to the render locals, is the stored one without its [password]. *)
Lemma addUser_attaches_without_password `{Jws} (env : Env) (db : Store) (clk : Clock)
    (x : Exchange) (i : string) (u : Doc) :
  subject (decodeToken env (at_verify clk) (req x)) = Some i ->
  db i = Resolved (Some u) ->
  let y := addUserToRequestAndLocals env db clk x in
  user (req y) = Some (delete "password" u) /\
  locals_user (res y) = Some (delete "password" u) /\
  (forall v, user (req y) = Some v -> v !! "password" = None).
Proof.
  intros Hi Hdb y. unfold y, addUserToRequestAndLocals.
  destruct (decodeToken env (at_verify clk) (req x)) as [d|]; [|discriminate].
  rewrite Hi. unfold await. simpl. rewrite Hdb.
  pose proof (renew_only_cookies env (at_renew clk) (at_sign clk)
                (set_locals_user (project "-password" u) (res x)) d) as (_ & _ & Hl & _).
  simpl in *. split; [reflexivity|]. split; [exact Hl|].
  intros v [= <-]. apply lookup_delete_eq.
Qed.

(** The record the API guard attaches is the stored one, as it is. *)
Lemma requireAuthForApi_attaches_stored `{Jws} (env : Env) (db : Store) (clk : Clock)
    (x : Exchange) (i : string) (u : Doc) :
  subject (decodeToken env (at_verify clk) (req x)) = Some i ->
  db i = Resolved (Some u) ->
  let y := requireAuthForApi env db clk x in
  user (req y) = Some u /\ userId (req y) = u !! "_id" /\
  next_calls y = S (next_calls x).
Proof.
  intros Hi Hdb y. unfold y, requireAuthForApi.
  destruct (decodeToken env (at_verify clk) (req x)) as [d|]; [|discriminate].
  rewrite Hi. unfold await. simpl. rewrite Hdb. simpl. auto.
Qed.

(** C2: the API guard on Alice's valid credential.  Her stored record has
    a [password]; the record the global context middleware attaches does
    not, the one the API guard attaches does. *)
Theorem requireAuthForApi_attaches_password :
  let x := Sample.exchange (Sample.request None (Some "Bearer tok.alice") "/api/auth/profile") in
  Sample.db "alice" = Resolved (Some Sample.alice_doc) /\
  (exists u, user (req (@addUserToRequestAndLocals Sample.jws Sample.env Sample.db Sample.clk x))
             = Some u /\ u !! "password" = None) /\
  (exists u, user (req (@requireAuthForApi Sample.jws Sample.env Sample.db Sample.clk x))
             = Some u /\ u !! "password" = Some "$2a$08$hash").
Proof.
  intros x. split; [reflexivity|]. split.
  - destruct (@addUser_attaches_without_password Sample.jws Sample.env Sample.db Sample.clk x
                "alice" Sample.alice_doc eq_refl eq_refl) as (Hu & _ & _).
    eexists. split; [exact Hu|]. apply lookup_delete_eq.
  - destruct (@requireAuthForApi_attaches_stored Sample.jws Sample.env Sample.db Sample.clk x
                "alice" Sample.alice_doc eq_refl eq_refl) as (Hu & _ & _).
    eexists. split; [exact Hu|]. reflexivity.
Qed.

(** ** The page guard *)

(** *** [encodeURIComponent] *)

Ltac each_ascii c := destruct c as [[] [] [] [] [] [] [] []].

Lemma read_encode_unit (c : ascii) (rest : string) :
  Uri.read_unit (Uri.encode_unit c +:+ rest) = Some (c, rest).
Proof. each_ascii c; reflexivity. Qed.

(** Distinct paths have distinct encodings. *)
Lemma encodeURIComponent_injective (s1 s2 : string) :
  Uri.encodeURIComponent s1 = Uri.encodeURIComponent s2 -> s1 = s2.
Proof.
  revert s2. induction s1 as [|c1 s1 IH]; intros [|c2 s2] Heq; simpl in Heq.
  - reflexivity.
  - apply (f_equal Uri.read_unit) in Heq. rewrite read_encode_unit in Heq. discriminate.
  - apply (f_equal Uri.read_unit) in Heq. rewrite read_encode_unit in Heq. discriminate.
  - apply (f_equal Uri.read_unit) in Heq. rewrite !read_encode_unit in Heq.
    injection Heq as -> Hrest. f_equal. by apply IH.
Qed.

Lemma encode_unit_chars (c : ascii) :
  forallb Uri.component_char (list_ascii_of_string (Uri.encode_unit c)) = true.
Proof. each_ascii c; reflexivity. Qed.

Lemma forallb_append (f : ascii -> bool) (s1 s2 : string) :
  forallb f (list_ascii_of_string (s1 +:+ s2))
  = forallb f (list_ascii_of_string s1) && forallb f (list_ascii_of_string s2).
Proof.
  induction s1 as [|c s1 IH]; simpl; [reflexivity|]. rewrite IH. by rewrite andb_assoc.
Qed.

Lemma encodeURIComponent_chars (s : string) :
  forallb Uri.component_char (list_ascii_of_string (Uri.encodeURIComponent s)) = true.
Proof.
  induction s as [|c s IH]; simpl; [reflexivity|].
  rewrite forallb_append, encode_unit_chars, IH. reflexivity.
Qed.

(** An encoded component holds no [&], [=], [?], [#] or [+]: inside a query
    string it stays one parameter value. *)
Lemma encodeURIComponent_no_delimiter (s : string) (c : ascii) :
  In c (list_ascii_of_string (Uri.encodeURIComponent s)) ->
  c <> "&"%char /\ c <> "="%char /\ c <> "?"%char /\ c <> "#"%char /\ c <> "+"%char.
Proof.
  intros Hin. pose proof (encodeURIComponent_chars s) as Hall.
  rewrite forallb_forall in Hall. specialize (Hall c Hin).
  repeat split; intros ->; discriminate Hall.
Qed.

Lemma append_cancel_r (s1 s2 t : string) : s1 +:+ t = s2 +:+ t -> s1 = s2.
Proof.
  intros Heq.
  assert (forall a b, list_ascii_of_string (a +:+ b)
                      = (list_ascii_of_string a ++ list_ascii_of_string b)%list) as Happ.
  { intros a b. induction a as [|c a IH]; simpl; [reflexivity|]. by rewrite IH. }
  apply (f_equal list_ascii_of_string) in Heq. rewrite !Happ in Heq.
  apply app_inv_tail in Heq. apply (f_equal string_of_list_ascii) in Heq.
  by rewrite !string_of_list_ascii_of_string in Heq.
Qed.

(** *** The guard *)

(** C8.  With a user attached, the page guard calls [next] and leaves
    request and response alone.  Without one it answers 302 with Location
    [/login?redirect=<encodeURIComponent(originalUrl)>&error=Please+log+in+to+view+this+page]
    and does not call [next]; the Location determines the path that was
    asked for. *)
Theorem requireAuthForPage_contract (x : Exchange) :
  let y := requireAuthForPage x in
  (forall u, user (req x) = Some u ->
     res y = res x /\ req y = req x /\ next_calls y = S (next_calls x)) /\
  (user (req x) = None ->
     statusCode (res y) = 302 /\
     location (res y)
     = Some ("/login?redirect=" +:+ Uri.encodeURIComponent (originalUrl (req x))
             +:+ "&error=Please+log+in+to+view+this+page") /\
     body (res y) = Some RedirectBody /\
     next_calls y = next_calls x /\ req y = req x) /\
  (forall x', user (req x) = None -> user (req x') = None ->
     location (res (requireAuthForPage x')) = location (res y) ->
     originalUrl (req x') = originalUrl (req x)).
Proof.
  intros y. unfold y, requireAuthForPage. split; [|split].
  - intros u ->. simpl. auto.
  - intros ->. simpl. auto.
  - intros x' -> ->. simpl. intros [= Heq].
    change (Uri.encodeURIComponent (originalUrl (req x'))
              +:+ "&error=Please+log+in+to+view+this+page"
            = Uri.encodeURIComponent (originalUrl (req x))
              +:+ "&error=Please+log+in+to+view+this+page") in Heq.
    apply append_cancel_r in Heq. by apply encodeURIComponent_injective.
Qed.

(** No session and [/dashboard] asked for; Alice attached and the same. *)
Lemma requireAuthForPage_contract_witness :
  let anonymous := Sample.exchange (Sample.request None None "/dashboard") in
  let known := with_req (set_user Sample.alice_doc (req anonymous)) anonymous in
  (statusCode (res (requireAuthForPage anonymous)) = 302 /\
   location (res (requireAuthForPage anonymous))
   = Some "/login?redirect=%2Fdashboard&error=Please+log+in+to+view+this+page" /\
   next_calls (requireAuthForPage anonymous) = 0%nat) /\
  (res (requireAuthForPage known) = fresh_response /\
   next_calls (requireAuthForPage known) = 1%nat).
Proof.
  intros anonymous known. split.
  - destruct (requireAuthForPage_contract anonymous) as (_ & Hredirect & _).
    destruct (Hredirect eq_refl) as (Hstatus & Hlocation & _ & Hnext & _).
    split; [exact Hstatus|]. split; [exact Hlocation | exact Hnext].
  - destruct (requireAuthForPage_contract known) as (Hpass & _).
    destruct (Hpass Sample.alice_doc eq_refl) as (Hres & _ & Hnext).
    split; [exact Hres | exact Hnext].
Defined.

(** ** More on the resolver *)

Lemma prefix_append (p t : string) : String.prefix p (p +:+ t) = true.
Proof.
  induction p as [|a p IH]; simpl; [by destruct t|].
  destruct (ascii_dec a a) as [_|Hne]; [exact IH | by destruct Hne].
Qed.

Lemma prefix_split (p s : string) :
  String.prefix p s = true -> s = p +:+ Js.substring_from (String.length p) s.
Proof.
  revert s. induction p as [|a p IH]; intros s Hp; simpl.
  - by destruct s.
  - destruct s as [|b s]; simpl in Hp; [discriminate|].
    destruct (ascii_dec a b) as [->|_]; [|discriminate].
    change (String b s = String b (p +:+ Js.substring_from (String.length p) s)).
    f_equal. by apply IH.
Qed.

Lemma bearer_token_Some (r : Request) (t : string) :
  bearer_token r = Some t <-> authorization r = Some ("Bearer " +:+ t).
Proof.
  unfold bearer_token, Js.startsWith. split.
  - destruct (Js.truthy_opt (authorization r)) as [h|] eqn:Hh; [|discriminate].
    apply truthy_opt_Some in Hh as [Hh _].
    destruct (String.prefix "Bearer " h) eqn:Hp; [|discriminate].
    intros [= <-]. rewrite Hh. f_equal. exact (prefix_split "Bearer " h Hp).
  - intros Ha.
    assert (Js.truthy_opt (authorization r) = Some ("Bearer " +:+ t)) as ->.
    { apply truthy_opt_Some. split; [exact Ha|]. discriminate. }
    rewrite prefix_append. reflexivity.
Qed.


Lemma cookie_token_None (r : Request) :
  cookie_token r = None <->
  cookies r = None \/
  exists jar, cookies r = Some jar /\ (jar !! "token" = None \/ jar !! "token" = Some "").
Proof.
  unfold cookie_token. destruct (cookies r) as [jar|]; [|split; auto].
  destruct (jar !! "token") as [[|a t]|] eqn:Ht; simpl; split; eauto; try discriminate.
  intros [? | (jar' & [= <-] & [Hn | He])]; congruence.
Qed.

(** X2.  A request whose [token] cookie is absent (no cookie jar, or no
    [token] in it) or empty resolves by its Authorization header alone: as
    the same request without cookies does, to the verification of a
    non-empty bearer credential, and to nothing when there is no bearer
    credential. *)
Theorem header_alone_without_cookie `{Jws} (env : Env) (now : Z) (r : Request) :
  (cookies r = None \/
   exists jar, cookies r = Some jar /\ (jar !! "token" = None \/ jar !! "token" = Some "")) ->
  decodeToken env now r = decodeToken env now (set_cookies None r) /\
  (forall t, authorization r = Some ("Bearer " +:+ t) -> t <> "" ->
     decodeToken env now r = verify_or_null env now t) /\
  (authorization r = Some "Bearer " -> decodeToken env now r = None) /\
  (bearer_token r = None -> decodeToken env now r = None).
Proof.
  intros Hc. apply cookie_token_None in Hc.
  assert (extract_token r = bearer_token r) as Hex
    by (unfold extract_token; rewrite Hc; reflexivity).
  unfold decodeToken. rewrite Hex. split; [reflexivity|]. split; [|split].
  - intros t Ha Hne. apply bearer_token_Some in Ha. rewrite Ha.
    assert (Js.truthy_opt (Some t) = Some t) as -> by (by apply truthy_opt_Some).
    reflexivity.
  - intros Ha. apply (bearer_token_Some r "") in Ha. rewrite Ha. reflexivity.
  - intros ->. reflexivity.
Qed.

(** An empty [token] cookie and Bob's credential as a bearer: Bob. *)
Lemma header_alone_without_cookie_witness :
  let r := Sample.request (Some {[ "token" := "" ]}) (Some "Bearer tok.bob") "/" in
  @decodeToken Sample.jws Sample.env Sample.t0 r = Some Sample.bob.
Proof.
  intros r.
  destruct (@header_alone_without_cookie Sample.jws Sample.env Sample.t0 r) as (_ & Hb & _).
  - right. exists {[ "token" := "" ]}. split; [reflexivity|]. right. reflexivity.
  - rewrite (Hb "tok.bob" eq_refl); [reflexivity | discriminate].
Defined.

(** ** More on the API guard and the global context middleware *)

Section Outcomes.

Context `{Jws}.
Variable env : Env.
Variable db : Store.
Variable clk : Clock.
Variable x : Exchange.

(** The API guard on its success path, spelled out. *)
Lemma requireAuthForApi_found (d : Payload) (i : string) (u : Doc) :
  decodeToken env (at_verify clk) (req x) = Some d ->
  subject (Some d) = Some i -> db i = Resolved (Some u) ->
  requireAuthForApi env db clk x
  = {| req := set_userId (u !! "_id") (set_user u (req x));
       res := renewTokenIfNecessary env (at_renew clk) (at_sign clk) (res x) d;
       next_calls := S (next_calls x) |}.
Proof.
  intros Hd Hi Hdb. unfold requireAuthForApi. rewrite Hd, Hi.
  unfold await. simpl. rewrite Hdb. reflexivity.
Qed.

(** The global context middleware on its success path, spelled out. *)
Lemma addUser_found (d : Payload) (i : string) (u : Doc) :
  decodeToken env (at_verify clk) (req x) = Some d ->
  subject (Some d) = Some i -> db i = Resolved (Some u) ->
  addUserToRequestAndLocals env db clk x
  = {| req := set_user (delete "password" u) (req x);
       res := renewTokenIfNecessary env (at_renew clk) (at_sign clk)
                (set_locals_user (delete "password" u) (res x)) d;
       next_calls := S (next_calls x) |}.
Proof.
  intros Hd Hi Hdb. unfold addUserToRequestAndLocals. rewrite Hd, Hi.
  unfold await. simpl. rewrite Hdb. reflexivity.
Qed.

(** And on every other path. *)
Lemma addUser_not_found :
  (forall i u, subject (decodeToken env (at_verify clk) (req x)) = Some i ->
               db i <> Resolved (Some u)) ->
  addUserToRequestAndLocals env db clk x = next x.
Proof.
  intros Hnot. unfold addUserToRequestAndLocals.
  destruct (decodeToken env (at_verify clk) (req x)) as [d|]; [|reflexivity].
  destruct (subject (Some d)) as [i|] eqn:Hi; [|reflexivity].
  unfold await. simpl. destruct (db i) as [[u|]|] eqn:Hdb; try reflexivity.
  by destruct (Hnot i u eq_refl).
Qed.

End Outcomes.

Ltac outcome_cases :=
  repeat match goal with
         | |- _ /\ _ => split
         | |- _ <-> _ => split; intros
         | H : _ /\ _ |- _ => destruct H
         | H : exists _, _ |- _ => destruct H
         end;
  simpl in *; subst; try lia; try congruence; eauto.

(** X3.  On a response nothing was sent on, the API guard ends in exactly
    one of four ways, each decided by the resolver and the lookup: it calls
    [next] (and sends nothing) exactly when the resolver yields a subject
    and the lookup finds a record; it answers 403 exactly when the resolver
    yields no subject (no credential, one that does not verify, or a
    payload without an [id]); 401 exactly when the lookup resolves to
    nothing; 500 exactly when the lookup throws. *)
Theorem requireAuthForApi_outcomes `{Jws} (env : Env) (db : Store) (clk : Clock)
    (x : Exchange) :
  body (res x) = None ->
  let y := requireAuthForApi env db clk x in
  let who := subject (decodeToken env (at_verify clk) (req x)) in
  (next_calls y = S (next_calls x) /\ body (res y) = None
     <-> exists i u, who = Some i /\ db i = Resolved (Some u)) /\
  (next_calls y = next_calls x /\ statusCode (res y) = 403 /\
   body (res y) = Some (JsonBody false "Authentication failed. No token provided.")
     <-> who = None) /\
  (next_calls y = next_calls x /\ statusCode (res y) = 401 /\
   body (res y) = Some (JsonBody false "Unauthorized. User not found.")
     <-> exists i, who = Some i /\ db i = Resolved None) /\
  (next_calls y = next_calls x /\ statusCode (res y) = 500 /\
   body (res y) = Some (JsonBody false "Server error during API authentication.")
     <-> exists i, who = Some i /\ db i = Rejected).
Proof.
  intros Hfresh y who. unfold y, who, requireAuthForApi.
  destruct (decodeToken env (at_verify clk) (req x)) as [d|] eqn:Hd;
    [destruct (subject (Some d)) as [i|] eqn:Hi;
     [unfold await; simpl; destruct (db i) as [[u|]|] eqn:Hdb|]|];
    simpl.
  1:{ pose proof (renew_only_cookies env (at_renew clk) (at_sign clk) (res x) d)
        as (_ & _ & _ & Hb). simpl in Hb. rewrite Hb, Hfresh. outcome_cases. }
  all: outcome_cases.
Qed.

(** Alice is let through; with the store out of reach she gets 500. *)
Lemma requireAuthForApi_outcomes_witness :
  let x := Sample.exchange (Sample.request None (Some "Bearer tok.alice") "/api/groups") in
  next_calls (@requireAuthForApi Sample.jws Sample.env Sample.db Sample.clk x) = 1%nat /\
  statusCode (res (@requireAuthForApi Sample.jws Sample.env unreachable Sample.clk x)) = 500.
Proof.
  intros x. split.
  - destruct (@requireAuthForApi_outcomes Sample.jws Sample.env Sample.db Sample.clk x eq_refl)
      as ([_ Hnext] & _).
    destruct Hnext as [Hcalled _]; [|exact Hcalled].
    exists "alice", Sample.alice_doc. split; reflexivity.
  - destruct (@requireAuthForApi_outcomes Sample.jws Sample.env unreachable Sample.clk x eq_refl)
      as (_ & _ & _ & [_ H500]).
    destruct H500 as (_ & Hstatus & _); [|exact Hstatus].
    exists "alice". split; reflexivity.
Defined.

(** X4.  On a request nothing is attached to yet, the global context
    middleware attaches a record exactly when the resolver yields a subject
    and the lookup finds a record; what it attaches is that record without
    its [password], with every other field as stored; and the request slot
    and the render slot always hold the same thing. *)
Theorem addUser_attaches_iff `{Jws} (env : Env) (db : Store) (clk : Clock)
    (x : Exchange) :
  user (req x) = None -> locals_user (res x) = None ->
  let y := addUserToRequestAndLocals env db clk x in
  let who := subject (decodeToken env (at_verify clk) (req x)) in
  user (req y) = locals_user (res y) /\
  (forall v, user (req y) = Some v <->
     exists i u, who = Some i /\ db i = Resolved (Some u) /\ v = delete "password" u) /\
  (forall v i u, user (req y) = Some v -> who = Some i -> db i = Resolved (Some u) ->
     v !! "password" = None /\ forall k, k <> "password" -> v !! k = u !! k).
Proof.
  intros Hu Hl y who. unfold y, who.
  destruct (decodeToken env (at_verify clk) (req x)) as [d|] eqn:Hd.
  2:{ rewrite (addUser_not_found env db clk x) by (rewrite Hd; discriminate).
      simpl. rewrite Hu, Hl. split; [reflexivity|]. split; [|discriminate].
      intros v. split; [discriminate|]. intros (j & w & Hj & _). discriminate. }
  destruct (subject (Some d)) as [i|] eqn:Hi.
  2:{ rewrite (addUser_not_found env db clk x) by (rewrite Hd, Hi; discriminate).
      simpl. rewrite Hu, Hl. split; [reflexivity|]. split; [|discriminate].
      intros v. split; [discriminate|]. intros (j & w & Hj & _). discriminate. }
  destruct (db i) as [[u|]|] eqn:Hdb.
  - rewrite (addUser_found env db clk x d i u Hd Hi Hdb).
    pose proof (renew_only_cookies env (at_renew clk) (at_sign clk)
                  (set_locals_user (delete "password" u) (res x)) d) as (_ & _ & Hloc & _).
    simpl in *. rewrite Hloc. split; [reflexivity|]. split.
    + intros v. split.
      * intros [= <-]. eauto.
      * intros (j & w & [= <-] & Hw & ->). congruence.
    + intros v j w [= <-] [= <-] Hw. assert (w = u) as -> by congruence.
      split; [apply lookup_delete_eq|]. intros k Hk. by apply lookup_delete_ne.
  - rewrite (addUser_not_found env db clk x)
      by (rewrite Hd, Hi; intros j w [= <-]; congruence).
    simpl. rewrite Hu, Hl. split; [reflexivity|]. split.
    + intros v. split; [discriminate|]. intros (j & w & [= <-] & Hw & _). congruence.
    + discriminate.
  - rewrite (addUser_not_found env db clk x)
      by (rewrite Hd, Hi; intros j w [= <-]; congruence).
    simpl. rewrite Hu, Hl. split; [reflexivity|]. split.
    + intros v. split; [discriminate|]. intros (j & w & [= <-] & Hw & _). congruence.
    + discriminate.
Qed.

(** Alice's request: her record is attached, with her name and without
    the password. *)
Lemma addUser_attaches_iff_witness :
  let y := @addUserToRequestAndLocals Sample.jws Sample.env Sample.db Sample.clk
             (Sample.exchange SampleRoute.alice_request) in
  user (req y) = Some (delete "password" Sample.alice_doc) /\
  user (req y) = locals_user (res y).
Proof.
  intros y.
  destruct (@addUser_attaches_iff Sample.jws Sample.env Sample.db Sample.clk
              (Sample.exchange SampleRoute.alice_request) eq_refl eq_refl)
    as (Hmirror & Hiff & _).
  split; [|exact Hmirror].
  apply Hiff. exists "alice", Sample.alice_doc. repeat split; reflexivity.
Defined.

(** X5.  Neither handler renews for a request it does not authenticate:
    if the global context middleware or the API guard writes a cookie, the
    resolver yielded a subject, the lookup found a record and the renewal
    was due; the API guard then also called [next].  A valid credential of
    a deleted user, or one looked up in a store out of reach, is never
    renewed. *)
Theorem renewal_only_on_success `{Jws} (env : Env) (db : Store) (clk : Clock)
    (x : Exchange) :
  let who := subject (decodeToken env (at_verify clk) (req x)) in
  let authenticated :=
    exists d i u, decodeToken env (at_verify clk) (req x) = Some d /\ who = Some i /\
                  db i = Resolved (Some u) /\ renewal_due (at_renew clk) d = true in
  (set_cookie (res (addUserToRequestAndLocals env db clk x)) <> set_cookie (res x) ->
   authenticated) /\
  (set_cookie (res (requireAuthForApi env db clk x)) <> set_cookie (res x) ->
   authenticated /\ next_calls (requireAuthForApi env db clk x) = S (next_calls x)) /\
  (forall i, who = Some i -> db i = Resolved None \/ db i = Rejected ->
   set_cookie (res (addUserToRequestAndLocals env db clk x)) = set_cookie (res x) /\
   set_cookie (res (requireAuthForApi env db clk x)) = set_cookie (res x)).
Proof.
  intros who authenticated. unfold who, authenticated.
  destruct (decodeToken env (at_verify clk) (req x)) as [d|] eqn:Hd.
  2:{ rewrite (addUser_not_found env db clk x) by (rewrite Hd; discriminate).
      unfold requireAuthForApi. rewrite Hd. simpl.
      split; [by intros []|]. split; [by intros []|]. discriminate. }
  destruct (subject (Some d)) as [i|] eqn:Hi.
  2:{ rewrite (addUser_not_found env db clk x) by (rewrite Hd, Hi; discriminate).
      unfold requireAuthForApi. rewrite Hd, Hi. simpl.
      split; [by intros []|]. split; [by intros []|]. discriminate. }
  destruct (db i) as [[u|]|] eqn:Hdb.
  - rewrite (addUser_found env db clk x d i u Hd Hi Hdb),
            (requireAuthForApi_found env db clk x d i u Hd Hi Hdb). simpl.
    unfold renewTokenIfNecessary.
    destruct (renewal_due (at_renew clk) d) eqn:Hdue; simpl.
    + split; [intros _; eauto 10|]. split; [intros _; eauto 10|].
      intros j [= <-] [Hj | Hj]; congruence.
    + split; [by intros []|]. split; [by intros []|].
      intros j [= <-] [Hj | Hj]; congruence.
  - rewrite (addUser_not_found env db clk x)
      by (rewrite Hd, Hi; intros j w [= <-]; congruence).
    unfold requireAuthForApi. rewrite Hd, Hi. unfold await. simpl. rewrite Hdb. simpl.
    split; [by intros []|]. split; [by intros []|]. auto.
  - rewrite (addUser_not_found env db clk x)
      by (rewrite Hd, Hi; intros j w [= <-]; congruence).
    unfold requireAuthForApi. rewrite Hd, Hi. unfold await. simpl. rewrite Hdb. simpl.
    split; [by intros []|]. split; [by intros []|]. auto.
Qed.

(** Carol's credential is due for renewal, and her record is gone from the
    store: no cookie from either handler. *)
Lemma renewal_only_on_success_witness :
  let x := Sample.exchange SampleRoute.carol_request in
  set_cookie (res (@addUserToRequestAndLocals Sample.jws Sample.env (store_of ∅) Sample.clk x))
  = [] /\
  set_cookie (res (@requireAuthForApi Sample.jws Sample.env (store_of ∅) Sample.clk x)) = [].
Proof.
  intros x.
  destruct (@renewal_only_on_success Sample.jws Sample.env (store_of ∅) Sample.clk x)
    as (_ & _ & Hnone).
  exact (Hnone "carol" eq_refl (or_introl eq_refl)).
Defined.

(** ** The life of a replacement *)

Lemma floor_seconds (ms : Z) : ms - 1000 < seconds_of ms * 1000 <= ms.
Proof.
  unfold seconds_of. pose proof (Z.div_mod ms 1000). pose proof (Z.mod_pos_bound ms 1000). lia.
Qed.

Lemma before_expiry (t e : Z) : seconds_of t < e <-> t < e * 1000.
Proof.
  pose proof (floor_seconds t) as Hf. split; intros Hlt; [lia|].
  assert (seconds_of t * 1000 < e * 1000) by lia. lia.
Qed.

(** X6.  A replacement signed at [s] is good for seven days and is itself
    left alone for six: until one second short of six days after [s] the
    renewal policy does not replace it again, after six days it does;
    until one second short of seven days after [s] it verifies, and from
    seven days after [s] on it does not (the codec reading back what it
    signed). *)
Theorem replacement_lifetime `{Jws} (env : Env) (s t : Z) (who : option string) :
  let replacement := renewed_payload s who in
  let newToken := jwt_sign s who (JWT_SECRET env) in
  (t <= s + 6 * 24 * 60 * 60 * 1000 - 1000 -> renewal_due t replacement = false) /\
  (s + 6 * 24 * 60 * 60 * 1000 < t -> 0 <= s -> renewal_due t replacement = true) /\
  (jws_verify (JWT_SECRET env) newToken = Some replacement ->
   (t <= s + 7 * 24 * 60 * 60 * 1000 - 1000 ->
    verify_or_null env t newToken = Some replacement) /\
   (s + 7 * 24 * 60 * 60 * 1000 <= t -> verify_or_null env t newToken = None)).
Proof.
  intros replacement newToken. pose proof (floor_seconds s) as Hs.
  assert (exp replacement = Some (seconds_of s + sevenDaysInSeconds)) as Hexp by reflexivity.
  unfold sevenDaysInSeconds in Hexp.
  split; [|split].
  - intros Ht. apply (far_from_expiry_not_due t _ _ Hexp). lia.
  - intros Ht Hpos. apply renewal_due_spec. eexists. split; [exact Hexp|].
    assert (0 <= seconds_of s) by (apply Z.div_pos; lia). split; lia.
  - intros Hopen. split.
    + intros Ht. apply verify_or_null_Some. split; [exact Hopen|].
      intros e He. rewrite Hexp in He. injection He as <-. apply before_expiry. lia.
    + intros Ht. apply verify_or_null_None. right. eexists _, _.
      split; [exact Hopen|]. split; [exact Hexp|].
      destruct (Z.le_gt_cases (seconds_of s + 7 * 24 * 60 * 60) (seconds_of t)) as [|Hgt];
        [assumption|].
      apply before_expiry in Hgt. lia.
Qed.

(** Carol's replacement, signed at [t0]: left alone five days later, due
    six and a half days later, still good then. *)
Lemma replacement_lifetime_witness :
  renewal_due (Sample.t0 + 5 * Sample.day) (renewed_payload Sample.t0 (Some "carol")) = false /\
  @verify_or_null Sample.jws Sample.env (Sample.t0 + 5 * Sample.day) "tok.carol.renewed"
  = Some (renewed_payload Sample.t0 (Some "carol")).
Proof.
  destruct (@replacement_lifetime Sample.jws Sample.env Sample.t0
              (Sample.t0 + 5 * Sample.day) (Some "carol")) as (Hquiet & _ & Hgood).
  split.
  - apply Hquiet. vm_compute. discriminate.
  - destruct (Hgood eq_refl) as [Hvalid _]. apply Hvalid. vm_compute. discriminate.
Defined.

(** X7.  A credential that was resolved and not due for renewal is still
    good a day later: if [decodeToken] returned a payload (the clock at or
    after the epoch) and the renewal policy, entered at [renewed_at], did
    not replace it, then the same request resolves to the same payload at
    every instant less than 24 hours after [renewed_at]. *)
Theorem not_renewed_still_valid `{Jws} (env : Env) (verified_at renewed_at t : Z)
    (r : Request) (p : Payload) (e : Z) :
  0 <= verified_at ->
  decodeToken env verified_at r = Some p ->
  exp p = Some e ->
  renewal_due renewed_at p = false ->
  t < renewed_at + 24 * 60 * 60 * 1000 ->
  decodeToken env t r = Some p.
Proof.
  intros Hclock Hd He Hquiet Ht.
  pose proof (decodeToken_unexpired env _ _ _ _ Hd He) as Hlive.
  assert (0 <= seconds_of verified_at) as Hpos by (apply Z.div_pos; lia).
  assert (24 * 60 * 60 * 1000 <= e * 1000 - renewed_at) as Hfar.
  { destruct (Z.lt_ge_cases (e * 1000 - renewed_at) (24 * 60 * 60 * 1000)) as [Hlt|];
      [|assumption].
    assert (renewal_due renewed_at p = true) as Hdue
      by (apply renewal_due_spec; exists e; repeat split; [assumption | lia | assumption]).
    congruence. }
  apply decodeToken_Some in Hd as (tok & Hex & Hne & Hv).
  apply verify_or_null_Some in Hv as [Hopen _].
  apply decodeToken_Some. exists tok. split; [exact Hex|]. split; [exact Hne|].
  apply verify_or_null_Some. split; [exact Hopen|].
  intros e' He'. rewrite He in He'. injection He' as <-. apply before_expiry. lia.
Qed.

(** Alice's credential, not due at [t0], resolved again 23 hours later. *)
Lemma not_renewed_still_valid_witness :
  @decodeToken Sample.jws Sample.env (Sample.t0 + 23 * 60 * 60 * 1000) SampleRoute.alice_request
  = Some Sample.alice.
Proof.
  apply (@not_renewed_still_valid Sample.jws Sample.env Sample.t0 Sample.t0
           (Sample.t0 + 23 * 60 * 60 * 1000) SampleRoute.alice_request Sample.alice
           (seconds_of Sample.t0 - 3600 + sevenDaysInSeconds)).
  - vm_compute. discriminate.
  - reflexivity.
  - reflexivity.
  - reflexivity.
  - reflexivity.
Defined.

(** ** More on the page guard *)

Lemma occurrences_append (c : ascii) (s1 s2 : string) :
  occurrences c (s1 +:+ s2) = (occurrences c s1 + occurrences c s2)%nat.
Proof.
  induction s1 as [|a s1 IH]; [reflexivity|].
  change (occurrences c (String a (s1 +:+ s2))
          = (occurrences c (String a s1) + occurrences c s2)%nat).
  simpl. rewrite IH. lia.
Qed.

Lemma occurrences_none (f : ascii -> bool) (c : ascii) (s : string) :
  forallb f (list_ascii_of_string s) = true -> f c = false -> occurrences c s = O.
Proof.
  intros Hall Hc. induction s as [|a s IH]; [reflexivity|].
  simpl in Hall. apply andb_true_iff in Hall as [Ha Hs].
  simpl. rewrite (IH Hs). destruct (Ascii.eqb_spec a c) as [->|_]; [congruence | reflexivity].
Qed.

(** X8.  Whatever URL was asked for, the Location the page guard redirects
    to has one [?], one [&], two [=] and no [#]: its query string holds the
    [redirect] and the [error] parameter and nothing the requested URL could
    add or replace. *)
Theorem login_redirect_parameters (x : Exchange) :
  user (req x) = None ->
  exists loc, location (res (requireAuthForPage x)) = Some loc /\
    String.prefix "/login?redirect=" loc = true /\
    occurrences "?" loc = 1%nat /\ occurrences "&" loc = 1%nat /\
    occurrences "=" loc = 2%nat /\ occurrences "#" loc = 0%nat.
Proof.
  intros Hu. unfold requireAuthForPage. rewrite Hu. simpl. eexists. split; [reflexivity|].
  pose proof (encodeURIComponent_chars (originalUrl (req x))) as Hall.
  split; [apply prefix_append|].
  rewrite !occurrences_append.
  rewrite (occurrences_none _ "?" _ Hall eq_refl), (occurrences_none _ "&" _ Hall eq_refl),
          (occurrences_none _ "=" _ Hall eq_refl), (occurrences_none _ "#" _ Hall eq_refl).
  repeat split; reflexivity.
Qed.

(** A requested URL that tries to bring its own [error] parameter and a
    fragment. *)
Lemma login_redirect_parameters_witness :
  location (res (requireAuthForPage
                   (Sample.exchange (Sample.request None None "/dashboard?a=1&error=x#top"))))
  = Some "/login?redirect=%2Fdashboard%3Fa%3D1%26error%3Dx%23top&error=Please+log+in+to+view+this+page".
Proof.
  destruct (login_redirect_parameters
              (Sample.exchange (Sample.request None None "/dashboard?a=1&error=x#top")) eq_refl)
    as (loc & Hloc & _).
  rewrite Hloc. f_equal. injection Hloc as <-. reflexivity.
Defined.

(** ** Routes *)

Lemma next_was_called (x : Exchange) : (next_calls x <? S (next_calls x))%nat = true.
Proof. apply Nat.ltb_lt. lia. Qed.

Lemma next_not_called (x : Exchange) : (next_calls x <? next_calls x)%nat = false.
Proof. apply Nat.ltb_ge. lia. Qed.

(** The global context middleware always hands on to the next handler. *)
Lemma dispatch_after_addUser `{Jws} (env : Env) (db : Store) (clk : Clock)
    (rest : list (Exchange -> Exchange)) (x : Exchange) :
  dispatch (addUserToRequestAndLocals env db clk :: rest) x
  = dispatch rest (addUserToRequestAndLocals env db clk x).
Proof.
  assert (next_calls (addUserToRequestAndLocals env db clk x) = S (next_calls x)) as Hnext.
  { unfold addUserToRequestAndLocals.
    destruct (decodeToken env (at_verify clk) (req x)) as [d|]; [|reflexivity].
    destruct (subject (Some d)) as [i|]; [|reflexivity].
    destruct (await db (select "-password" (findById i))) as [[u|]|]; reflexivity. }
  cbn [dispatch]. rewrite Hnext, next_was_called. reflexivity.
Qed.

(** It leaves the credentials of the request alone, so resolving after it
    is resolving before it. *)
Lemma decodeToken_after_addUser `{Jws} (env : Env) (db : Store) (clk : Clock) (now : Z)
    (x : Exchange) :
  decodeToken env now (req (addUserToRequestAndLocals env db clk x))
  = decodeToken env now (req x).
Proof. unfold decodeToken. rewrite addUser_keeps_token. reflexivity. Qed.

(** And it sends nothing. *)
Lemma addUser_sends_nothing `{Jws} (env : Env) (db : Store) (clk : Clock) (x : Exchange) :
  let y := addUserToRequestAndLocals env db clk x in
  statusCode (res y) = statusCode (res x) /\ body (res y) = body (res x) /\
  location (res y) = location (res x) /\ originalUrl (req y) = originalUrl (req x).
Proof.
  unfold addUserToRequestAndLocals.
  destruct (decodeToken env (at_verify clk) (req x)) as [d|]; [|simpl; auto].
  destruct (subject (Some d)) as [i|]; [|simpl; auto].
  destruct (await db (select "-password" (findById i))) as [[u|]|]; simpl; auto.
  pose proof (renew_only_cookies env (at_renew clk) (at_sign clk)
                (set_locals_user u (res x)) d) as (Hs & Hl & _ & Hb).
  simpl in *. auto.
Qed.

Lemma dispatch_last (h : Exchange -> Exchange) (x : Exchange) : dispatch [h] x = h x.
Proof. cbn [dispatch]. by destruct (_ <? _)%nat. Qed.

Lemma dispatch_page_guard_pass (rest : list (Exchange -> Exchange)) (x : Exchange) (u : Doc) :
  user (req x) = Some u ->
  dispatch (requireAuthForPage :: rest) x = dispatch rest (next x).
Proof.
  intros Hu. cbn [dispatch]. unfold requireAuthForPage. rewrite Hu.
  cbn [next next_calls]. rewrite next_was_called. reflexivity.
Qed.

Lemma dispatch_page_guard_stop (rest : list (Exchange -> Exchange)) (x : Exchange) :
  user (req x) = None ->
  dispatch (requireAuthForPage :: rest) x = requireAuthForPage x.
Proof.
  intros Hu. cbn [dispatch]. unfold requireAuthForPage. rewrite Hu.
  cbn [with_res next_calls]. rewrite next_not_called. reflexivity.
Qed.

(** X9.  A protected page (/create-listing, /create-group, /profile,
    /profile-edit, /dashboard) on a request nothing is attached to yet: the
    page handler runs exactly when the resolver yields a subject and the
    lookup finds a record, and then on a request carrying that record
    without its [password] and on a response nothing was sent on; in every
    other case the answer is the redirect to the login page and the page
    handler does not run. *)
Theorem protected_page_reached `{Jws} (env : Env) (db : Store) (clk : Clock)
    (page : Exchange -> Exchange) (x : Exchange) :
  user (req x) = None ->
  let who := subject (decodeToken env (at_verify clk) (req x)) in
  (forall i u, who = Some i -> db i = Resolved (Some u) ->
     exists x', protected_page env db clk page x = page x' /\
       user (req x') = Some (delete "password" u) /\
       locals_user (res x') = Some (delete "password" u) /\
       statusCode (res x') = statusCode (res x) /\ body (res x') = body (res x) /\
       location (res x') = location (res x)) /\
  ((forall i u, who = Some i -> db i <> Resolved (Some u)) ->
     protected_page env db clk page x
     = with_res (redirect ("/login?redirect=" +:+ Uri.encodeURIComponent (originalUrl (req x))
                           +:+ "&error=Please+log+in+to+view+this+page") (res x))
                (next x)).
Proof.
  intros Hu who. unfold protected_page. rewrite dispatch_after_addUser. split.
  - intros i u Hi Hdb. unfold who in Hi.
    destruct (decodeToken env (at_verify clk) (req x)) as [d|] eqn:Hd; [|discriminate].
    rewrite (addUser_found env db clk x d i u Hd Hi Hdb).
    pose proof (renew_only_cookies env (at_renew clk) (at_sign clk)
                  (set_locals_user (delete "password" u) (res x)) d) as (Hs & Hl & Hloc & Hb).
    rewrite (dispatch_page_guard_pass _ _ (delete "password" u)) by reflexivity.
    rewrite dispatch_last. eexists. split; [reflexivity|].
    simpl in *. auto.
  - intros Hnot. rewrite (addUser_not_found env db clk x Hnot).
    rewrite dispatch_page_guard_stop by exact Hu.
    unfold requireAuthForPage. cbn [next req user]. rewrite Hu. reflexivity.
Qed.

(** Alice reaches the page; a request without credentials is sent to the
    login page. *)
Lemma protected_page_reached_witness :
  body (res (@protected_page Sample.jws Sample.env Sample.db Sample.clk SampleRoute.answer
               (Sample.exchange SampleRoute.alice_request)))
  = Some (JsonBody true "done") /\
  statusCode (res (@protected_page Sample.jws Sample.env Sample.db Sample.clk SampleRoute.answer
                     (Sample.exchange (Sample.request None None "/profile")))) = 302.
Proof.
  split.
  - destruct (@protected_page_reached Sample.jws Sample.env Sample.db Sample.clk
                SampleRoute.answer (Sample.exchange SampleRoute.alice_request) eq_refl)
      as [Hrun _].
    destruct (Hrun "alice" Sample.alice_doc eq_refl eq_refl) as (x' & -> & _).
    reflexivity.
  - destruct (@protected_page_reached Sample.jws Sample.env Sample.db Sample.clk
                SampleRoute.answer (Sample.exchange (Sample.request None None "/profile")) eq_refl)
      as [_ Hstop].
    rewrite Hstop; [reflexivity|]. intros i u Hi. discriminate Hi.
Defined.

(** X10.  The API guard decides by itself: run after the global context
    middleware (whatever store and clock that one saw) it answers with the
    same status and body, and calls [next] in the same cases, as on the
    request as it came in; and when it calls [next], the record and the
    identifier it leaves on the request are its own, not the ones the
    global context middleware attached. *)
Theorem api_guard_self_contained `{Jws} (env : Env) (db1 db : Store) (clk1 clk : Clock)
    (x : Exchange) :
  let x1 := addUserToRequestAndLocals env db1 clk1 x in
  let y0 := requireAuthForApi env db clk x in
  let y1 := requireAuthForApi env db clk x1 in
  statusCode (res y1) = statusCode (res y0) /\
  body (res y1) = body (res y0) /\
  (next_calls y1 = S (next_calls x1) <-> next_calls y0 = S (next_calls x)) /\
  (next_calls y0 = S (next_calls x) ->
   user (req y1) = user (req y0) /\ userId (req y1) = userId (req y0)).
Proof.
  intros x1 y0 y1.
  pose proof (addUser_sends_nothing env db1 clk1 x) as (Hs & Hb & _).
  fold x1 in Hs, Hb.
  pose proof (decodeToken_after_addUser env db1 clk1 (at_verify clk) x) as Hsame.
  fold x1 in Hsame.
  destruct (decodeToken env (at_verify clk) (req x)) as [d|] eqn:Hd.
  2:{ unfold y0, y1, requireAuthForApi. rewrite Hsame, Hd. simpl.
      repeat split; intros; lia. }
  destruct (subject (Some d)) as [i|] eqn:Hi.
  2:{ unfold y0, y1, requireAuthForApi. rewrite Hsame, Hd, Hi. simpl.
      repeat split; intros; lia. }
  destruct (db i) as [[u|]|] eqn:Hdb.
  - unfold y0, y1.
    rewrite (requireAuthForApi_found env db clk x d i u Hd Hi Hdb),
            (requireAuthForApi_found env db clk x1 d i u Hsame Hi Hdb).
    pose proof (renew_only_cookies env (at_renew clk) (at_sign clk) (res x) d)
      as (Hs0 & _ & _ & Hb0).
    pose proof (renew_only_cookies env (at_renew clk) (at_sign clk) (res x1) d)
      as (Hs1 & _ & _ & Hb1).
    simpl in *. rewrite Hs0, Hs1, Hb0, Hb1. repeat split; auto.
  - unfold y0, y1, requireAuthForApi. rewrite Hsame, Hd, Hi. unfold await. simpl.
    rewrite Hdb. simpl. repeat split; intros; lia.
  - unfold y0, y1, requireAuthForApi. rewrite Hsame, Hd, Hi. unfold await. simpl.
    rewrite Hdb. simpl. repeat split; intros; lia.
Qed.

(** Alice on an API route: the global context middleware attached her
    record without the password, the API guard replaces it with its own. *)
Lemma api_guard_self_contained_witness :
  let x := Sample.exchange SampleRoute.alice_request in
  let x1 := @addUserToRequestAndLocals Sample.jws Sample.env Sample.db Sample.clk x in
  user (req x1) = Some (delete "password" Sample.alice_doc) /\
  user (req (@requireAuthForApi Sample.jws Sample.env Sample.db Sample.clk x1))
  = Some Sample.alice_doc.
Proof.
  intros x x1. split; [reflexivity|].
  destruct (@api_guard_self_contained Sample.jws Sample.env Sample.db Sample.db
              Sample.clk Sample.clk x) as (_ & _ & _ & Hown).
  destruct (Hown eq_refl) as [Huser _]. fold x1 in Huser. rewrite Huser. reflexivity.
Defined.

Lemma dispatch_api_guard_pass `{Jws} (env : Env) (db : Store) (clk : Clock)
    (rest : list (Exchange -> Exchange)) (x : Exchange) (d : Payload) (i : string) (u : Doc) :
  decodeToken env (at_verify clk) (req x) = Some d ->
  subject (Some d) = Some i -> db i = Resolved (Some u) ->
  dispatch (requireAuthForApi env db clk :: rest) x
  = dispatch rest (requireAuthForApi env db clk x).
Proof.
  intros Hd Hi Hdb. cbn [dispatch].
  rewrite (requireAuthForApi_found env db clk x d i u Hd Hi Hdb).
  cbn [next_calls]. rewrite next_was_called. reflexivity.
Qed.

(** X11.  On a protected API route a credential that is due for renewal
    is renewed twice in one request: once by the global context middleware
    and once by the API guard.  The controller runs on a response carrying
    two [token] cookies, the first signed when the middleware ran and the
    second when the guard ran, both for the subject of the credential. *)
Theorem api_route_renews_twice `{Jws} (env : Env) (db1 db2 : Store) (clk1 clk2 : Clock)
    (controller : Exchange -> Exchange) (x : Exchange)
    (d : Payload) (i : string) (u1 u2 : Doc) :
  decodeToken env (at_verify clk1) (req x) = Some d ->
  decodeToken env (at_verify clk2) (req x) = Some d ->
  subject (Some d) = Some i ->
  db1 i = Resolved (Some u1) -> db2 i = Resolved (Some u2) ->
  renewal_due (at_renew clk1) d = true -> renewal_due (at_renew clk2) d = true ->
  let renewal (clk : Clock) :=
    {| cookie_name := "token";
       cookie_value := jws_sign (JWT_SECRET env) (renewed_payload (at_sign clk) (id d));
       cookie_options := renewal_cookie_options env |} in
  exists x', protected_api env db1 db2 clk1 clk2 controller x = controller x' /\
    set_cookie (res x') = (set_cookie (res x) ++ [renewal clk1; renewal clk2])%list /\
    user (req x') = Some u2 /\ userId (req x') = u2 !! "_id" /\
    body (res x') = body (res x).
Proof.
  intros Hd1 Hd2 Hi Hdb1 Hdb2 Hdue1 Hdue2 renewal. unfold protected_api.
  rewrite dispatch_after_addUser.
  pose proof (decodeToken_after_addUser env db1 clk1 (at_verify clk2) x) as Hsame.
  rewrite Hd2 in Hsame.
  rewrite (dispatch_api_guard_pass env db2 clk2 _ _ d i u2 Hsame Hi Hdb2), dispatch_last.
  eexists. split; [reflexivity|].
  rewrite (requireAuthForApi_found env db2 clk2 _ d i u2 Hsame Hi Hdb2).
  rewrite (addUser_found env db1 clk1 x d i u1 Hd1 Hi Hdb1).
  cbn [req res set_user set_userId user userId].
  rewrite !(renew_when_due env _ _ _ _ Hdue1), !(renew_when_due env _ _ _ _ Hdue2).
  simpl. rewrite <- app_assoc. auto.
Qed.

(** Carol's credential, 23h59m before its expiry, on an API route. *)
Lemma api_route_renews_twice_witness :
  set_cookie (res (@protected_api Sample.jws Sample.env Sample.db Sample.db Sample.clk Sample.clk
                     SampleRoute.answer (Sample.exchange SampleRoute.carol_request)))
  = [ {| cookie_name := "token"; cookie_value := "tok.carol.renewed";
         cookie_options := renewal_cookie_options Sample.env |};
      {| cookie_name := "token"; cookie_value := "tok.carol.renewed";
         cookie_options := renewal_cookie_options Sample.env |} ].
Proof.
  destruct (@api_route_renews_twice Sample.jws Sample.env Sample.db Sample.db Sample.clk
              Sample.clk SampleRoute.answer (Sample.exchange SampleRoute.carol_request)
              Sample.carol "carol" Sample.carol_doc Sample.carol_doc
              eq_refl eq_refl eq_refl eq_refl eq_refl eq_refl eq_refl)
    as (x' & -> & Hcookies & _).
  exact Hcookies.
Defined.



(** X13.  On a protected API route the credential is verified twice, at two
    readings of the clock.  When it expires in between, the global context
    middleware has attached the session and the API guard still answers
    403: the controller does not run, and the request keeps the record the
    middleware attached. *)
Theorem expiry_between_verifications `{Jws} (env : Env) (db1 db2 : Store) (clk1 clk2 : Clock)
    (controller : Exchange -> Exchange) (x : Exchange)
    (d : Payload) (i : string) (u : Doc) (e : Z) :
  decodeToken env (at_verify clk1) (req x) = Some d ->
  subject (Some d) = Some i -> db1 i = Resolved (Some u) ->
  exp d = Some e -> e <= seconds_of (at_verify clk2) ->
  let x1 := addUserToRequestAndLocals env db1 clk1 x in
  protected_api env db1 db2 clk1 clk2 controller x
  = with_res (json false "Authentication failed. No token provided." (status 403 (res x1))) x1 /\
  user (req x1) = Some (delete "password" u) /\
  locals_user (res x1) = Some (delete "password" u).
Proof.
  intros Hd Hi Hdb He Hexpired x1. unfold protected_api.
  rewrite dispatch_after_addUser. fold x1.
  assert (decodeToken env (at_verify clk2) (req x1) = None) as Hnone.
  { unfold x1. rewrite decodeToken_after_addUser.
    apply decodeToken_Some in Hd as (tok & Hex & _ & Hv).
    apply verify_or_null_Some in Hv as [Hopen _].
    apply decodeToken_None_iff. by eapply ExpiredCredential. }
  split.
  - cbn [dispatch]. unfold requireAuthForApi. rewrite Hnone.
    cbn [subject with_res next_calls]. rewrite next_not_called. reflexivity.
  - unfold x1. rewrite (addUser_found env db1 clk1 x d i u Hd Hi Hdb).
    pose proof (renew_only_cookies env (at_renew clk1) (at_sign clk1)
                  (set_locals_user (delete "password" u) (res x)) d) as (_ & _ & Hl & _).
    simpl in *. auto.
Qed.

(** Carol's credential expires 23h59m after [t0]: verified at [t0] by the
    middleware and a day later by the guard. *)
Lemma expiry_between_verifications_witness :
  let late := {| at_verify := Sample.t0 + Sample.day; at_renew := Sample.t0 + Sample.day;
                 at_sign := Sample.t0 + Sample.day |} in
  let y := @protected_api Sample.jws Sample.env Sample.db Sample.db Sample.clk late
             SampleRoute.answer (Sample.exchange SampleRoute.carol_request) in
  statusCode (res y) = 403 /\ user (req y) = Some (delete "password" Sample.carol_doc).
Proof.
  intros late y.
  destruct (@expiry_between_verifications Sample.jws Sample.env Sample.db Sample.db Sample.clk
              late SampleRoute.answer (Sample.exchange SampleRoute.carol_request)
              Sample.carol "carol" Sample.carol_doc (seconds_of Sample.t0 + 86340)
              eq_refl eq_refl eq_refl eq_refl) as (Hy & Hu & _).
  - vm_compute. discriminate.
  - unfold y. rewrite Hy. split; [reflexivity | exact Hu].
Defined.
